(** * Gesture pipeline of web-os: classifier, policy-gated mapper, drag sessions

    Shallow embedding of
      - [InputAbstractionLayer] (hand landmarks to gesture events),
      - [GestureMapper]         (gesture events to named actions),
      - [WindowManager]         (drag sessions reconstructed from drag events,
                                 focus, minimize, close, mouse drag),
      - the window part of the system store and the handedness heuristic of
        [HandTrackingEngine],
    followed by the properties of the pipeline.

    Conventions of the embedding.
      - A JavaScript [number] that holds a coordinate, a confidence or a
        threshold is an exact rational ([Q]); a millisecond count
        ([Date.now()], timestamps, hold times) is an integer ([Z]).  The
        statements compare such numbers and name the terms the code
        computes; none asserts an identity that needs exact arithmetic.
      - [Date.now()] and [Math.random().toString(36).slice(2, 11)] are inputs
        of the step that calls them ([now], [rnd]); [Math.sqrt] is a
        parameter of the classifier.
      - A subscriber is a function that either returns or throws; a
        dispatch records which subscribers were invoked. *)

From Stdlib Require Import ZArith QArith Qabs Qminmax Lqa Lia List Bool String.
From stdpp Require Import base gmap strings list.
Import ListNotations.

(** ** Shared types (types/index.ts) *)

Record Point := mkPoint { pt_x : Q; pt_y : Q }.

Record HandLandmark := mkLandmark {
  lm_x : Q;
  lm_y : Q;
  lm_z : Q;
  lm_visibility : option Q
}.

Inductive Handedness := Left | Right.

Definition handednessLabel (h : Handedness) : string :=
  match h with Left => "Left" | Right => "Right" end.

Inductive GestureType :=
  | open_palm | closed_fist | thumbs_up | thumbs_down
  | swipe_left | swipe_right | push_forward
  | pinch | pinch_rotate
  | two_finger_spread | two_finger_pinch
  | gesture_combo.

#[global] Instance GestureType_eq_dec : EqDecision GestureType.
Proof. solve_decision. Defined.

Definition GestureType_code (g : GestureType) : nat :=
  match g with
  | open_palm => 0 | closed_fist => 1 | thumbs_up => 2 | thumbs_down => 3
  | swipe_left => 4 | swipe_right => 5 | push_forward => 6
  | pinch => 7 | pinch_rotate => 8
  | two_finger_spread => 9 | two_finger_pinch => 10
  | gesture_combo => 11
  end%nat.

Definition GestureType_of_code (n : nat) : option GestureType :=
  match n with
  | 0 => Some open_palm | 1 => Some closed_fist | 2 => Some thumbs_up
  | 3 => Some thumbs_down | 4 => Some swipe_left | 5 => Some swipe_right
  | 6 => Some push_forward | 7 => Some pinch | 8 => Some pinch_rotate
  | 9 => Some two_finger_spread | 10 => Some two_finger_pinch
  | 11 => Some gesture_combo
  | _ => None
  end%nat.

#[global] Instance GestureType_countable : Countable GestureType.
Proof.
  apply (inj_countable GestureType_code GestureType_of_code).
  intros []; reflexivity.
Defined.

Record HandTrackingResult := mkResult {
  r_landmarks : list HandLandmark;
  r_handedness : Handedness;
  r_confidence : Q;
  r_timestamp : Z
}.

Record GestureEvent := mkEvent {
  ev_id : option string;
  ev_type : GestureType;
  ev_confidence : Q;
  ev_normalizedPosition : Point;
  ev_handedness : Handedness;
  ev_timestamp : Z;
  ev_data : option Q
}.

Record GestureMapping := mkMapping {
  gm_gesture : GestureType;
  gm_action : string;
  gm_requireFocus : option bool;
  gm_global : option bool;
  gm_holdMillis : option Z;
  gm_confidenceThreshold : option Q;
  gm_continuous : option bool
}.

(** ** Numbers and truthiness *)

Definition Qltb (a b : Q) : bool := negb (Qle_bool b a).
Definition Qgeb (a b : Q) : bool := Qle_bool b a.

(** [a || b] on an optional number: [undefined] and [0] are falsy. *)
Definition orQ (a : option Q) (b : Q) : Q :=
  match a with
  | Some v => if Qeq_bool v 0 then b else v
  | None => b
  end.

Definition orZ (a : option Z) (b : Z) : Z :=
  match a with
  | Some v => if (v =? 0)%Z then b else v
  | None => b
  end.

(** [s || undefined] on an optional string: [null] and the empty string are
    falsy. *)
Definition orUndefined (s : option string) : option string :=
  match s with
  | Some v => if decide (v = EmptyString) then None else Some v
  | None => None
  end.

(** ** Subscriber lists

    [callbacks.forEach(callback => callback(arg))]: the callbacks run in
    registration order; there is no handler around the call, so the first
    one that throws ends the loop and the exception leaves [forEach]. *)

Inductive Completion := Normal | Thrown.

Definition Callback (A : Type) := A -> Completion.

Fixpoint forEachFrom {A} (i : nat) (callbacks : list (Callback A)) (arg : A)
  : list nat * Completion :=
  match callbacks with
  | [] => ([], Normal)
  | callback :: rest =>
      match callback arg with
      | Thrown => ([i], Thrown)
      | Normal =>
          let '(called, c) := forEachFrom (S i) rest arg in (i :: called, c)
      end
  end.

(** Indices of the invoked subscribers, and how the loop completed. *)
Definition forEach {A} (callbacks : list (Callback A)) (arg : A)
  : list nat * Completion :=
  forEachFrom 0 callbacks arg.

(** ** InputAbstractionLayer *)

Module InputAbstractionLayer.

Record GestureState := mkState {
  lastGesture : option GestureType;
  gestureStartTime : Z;
  gestureId : option string;
  confidence : Q;
  position : Point;
  velocity : Point;
  previousPosition : Point
}.

(** The state created at the first sighting of a hand key. *)
Definition freshState : GestureState :=
  {| lastGesture := None;
     gestureStartTime := 0;
     gestureId := None;
     confidence := 0;
     position := mkPoint 0 0;
     velocity := mkPoint 0 0;
     previousPosition := mkPoint 0 0 |}.

Record t := mkLayer {
  callbacks : list (Callback GestureEvent);
  gestureStates : gmap string GestureState;
  smoothingFactor : Q;
  confidenceThreshold : Q;
  gestureHoldTime : Z
}.

Record Config := mkConfig {
  cfg_confidenceThreshold : option Q;
  cfg_smoothing : option Q;
  cfg_gestureHoldTime : option Z
}.

(** [new InputAbstractionLayer(config)]; the constructor reads
    [confidenceThreshold] and [smoothing] only, each with
    [!== undefined]. *)
Definition new (config : option Config) : t :=
  {| callbacks := [];
     gestureStates := ∅;
     smoothingFactor :=
       match config with
       | Some c => default 0.6%Q (cfg_smoothing c)
       | None => 0.6%Q
       end;
     confidenceThreshold :=
       match config with
       | Some c => default 0.8%Q (cfg_confidenceThreshold c)
       | None => 0.8%Q
       end;
     gestureHoldTime := 150 |}.

Definition updateConfig (config : Config) (l : t) : t :=
  {| callbacks := callbacks l;
     gestureStates := gestureStates l;
     smoothingFactor := default (smoothingFactor l) (cfg_smoothing config);
     confidenceThreshold :=
       default (confidenceThreshold l) (cfg_confidenceThreshold config);
     gestureHoldTime :=
       default (gestureHoldTime l) (cfg_gestureHoldTime config) |}.

Definition onGestureEvent (callback : Callback GestureEvent) (l : t) : t :=
  {| callbacks := callbacks l ++ [callback];
     gestureStates := gestureStates l;
     smoothingFactor := smoothingFactor l;
     confidenceThreshold := confidenceThreshold l;
     gestureHoldTime := gestureHoldTime l |}.

Definition destroy (l : t) : t :=
  {| callbacks := [];
     gestureStates := ∅;
     smoothingFactor := smoothingFactor l;
     confidenceThreshold := confidenceThreshold l;
     gestureHoldTime := gestureHoldTime l |}.

Definition emitGestureEvent (l : t) (event : GestureEvent)
  : list nat * Completion :=
  forEach (callbacks l) event.

(** What [detectGesture] returns when a rule matches. *)
Record Detection := mkDetection {
  d_type : GestureType;
  d_confidence : Q;
  d_data : option Q
}.

(** [landmarks[i]]. Every index read below is at most 20 and
    [processHandGestures] only reaches them with 21 landmarks or more. *)
Definition landmark (landmarks : list HandLandmark) (i : nat) : HandLandmark :=
  nth i landmarks (mkLandmark 0 0 0 None).

Definition fingerTips : list nat := [4; 8; 12; 16; 20]%nat.
Definition fingerPips : list nat := [3; 6; 10; 14; 18]%nat.

Definition fingerExtensions (landmarks : list HandLandmark) : list Z :=
  imap (fun i tipIdx =>
          let tip := landmark landmarks tipIdx in
          let pip := landmark landmarks (nth i fingerPips 0%nat) in
          if (i =? 0)%nat
          then (if Qltb (lm_x pip) (lm_x tip) then 1 else 0)%Z
          else (if Qltb (lm_y tip) (lm_y pip) then 1 else 0)%Z)
       fingerTips.

Definition extendedFingers (landmarks : list HandLandmark) : Z :=
  fold_left Z.add (fingerExtensions landmarks) 0%Z.

Definition extension (landmarks : list HandLandmark) (i : nat) : Z :=
  nth i (fingerExtensions landmarks) 0%Z.

Section Classifier.

(** [Math.sqrt]. *)
Variable sqrt : Q -> Q.

(** [Math.sqrt(Math.pow(a.x - b.x, 2) + Math.pow(a.y - b.y, 2))]. *)
Definition distance (a b : HandLandmark) : Q :=
  sqrt ((lm_x a - lm_x b) ^ 2 + (lm_y a - lm_y b) ^ 2).

Definition detectGesture (landmarks : list HandLandmark) (state : GestureState)
  : option Detection :=
  let n := extendedFingers landmarks in
  let ext := extension landmarks in
  if (4 <=? n)%Z then Some (mkDetection open_palm 0.9 None)
  else if (n =? 0)%Z then Some (mkDetection closed_fist 0.9 None)
  else if (n =? 1)%Z && (ext 0%nat =? 1)%Z
       then Some (mkDetection thumbs_up 0.85 None)
  else
    let pinchDistance := distance (landmark landmarks 4) (landmark landmarks 8) in
    if Qltb pinchDistance 0.05 && (ext 0%nat =? 1)%Z && (ext 1%nat =? 1)%Z
    then Some (mkDetection pinch 0.9 (Some pinchDistance))
    else if Qltb (lm_z (landmark landmarks 5)) (-0.1) && (ext 1%nat =? 1)%Z
    then Some (mkDetection push_forward 0.8 None)
    else if Qltb 0.02 (Qabs (pt_x (velocity state)))
    then (if Qltb 0 (pt_x (velocity state))
          then Some (mkDetection swipe_right 0.8 None)
          else Some (mkDetection swipe_left 0.8 None))
    else if (n =? 2)%Z && (ext 1%nat =? 1)%Z && (ext 2%nat =? 1)%Z
    then
      let fingerDistance :=
        distance (landmark landmarks 8) (landmark landmarks 12) in
      if Qltb 0.08 fingerDistance
      then Some (mkDetection two_finger_spread 0.8 None)
      else Some (mkDetection two_finger_pinch 0.8 None)
    else None.

(** Palm center: average of the wrist and the middle finger MCP. *)
Definition palmCenter (landmarks : list HandLandmark) : Point :=
  let wrist := landmark landmarks 0 in
  let middleMcp := landmark landmarks 9 in
  {| pt_x := (lm_x wrist + lm_x middleMcp) / 2;
     pt_y := (lm_y wrist + lm_y middleMcp) / 2 |}.

(** The position and velocity update of [processHandGestures]
    (lines 63-70): the velocity is computed from [previousPosition]
    first, then [previousPosition] receives a copy of [position], then
    [position] is smoothed. *)
Definition updateMotion (smoothing : Q) (center : Point) (state : GestureState)
  : GestureState :=
  {| lastGesture := lastGesture state;
     gestureStartTime := gestureStartTime state;
     gestureId := gestureId state;
     confidence := confidence state;
     position :=
       {| pt_x := pt_x (position state) * smoothing + pt_x center * (1 - smoothing);
          pt_y := pt_y (position state) * smoothing + pt_y center * (1 - smoothing) |};
     velocity :=
       {| pt_x := pt_x center - pt_x (previousPosition state);
          pt_y := pt_y center - pt_y (previousPosition state) |};
     previousPosition := position state |}.

(** New gesture or continuation (lines 78-87). *)
Definition updateIdentity (now : Z) (rnd : string) (d : Detection)
    (state : GestureState) : GestureState :=
  if decide (lastGesture state = Some (d_type d))
  then {| lastGesture := lastGesture state;
          gestureStartTime := gestureStartTime state;
          gestureId := gestureId state;
          confidence := confidence state * 0.8 + d_confidence d * 0.2;
          position := position state;
          velocity := velocity state;
          previousPosition := previousPosition state |}
  else {| lastGesture := Some (d_type d);
          gestureStartTime := now;
          gestureId := Some rnd;
          confidence := d_confidence d;
          position := position state;
          velocity := velocity state;
          previousPosition := previousPosition state |}.

(** No gesture detected (lines 106-109). *)
Definition resetGesture (state : GestureState) : GestureState :=
  {| lastGesture := None;
     gestureStartTime := gestureStartTime state;
     gestureId := None;
     confidence := 0;
     position := position state;
     velocity := velocity state;
     previousPosition := previousPosition state |}.

(** The emission test (lines 90-91). *)
Definition gate (l : t) (now : Z) (state : GestureState) : bool :=
  Qgeb (confidence state) (confidenceThreshold l)
  && (gestureHoldTime l <=? now - gestureStartTime state)%Z.

Definition gestureEvent (result : HandTrackingResult) (d : Detection)
    (state : GestureState) : GestureEvent :=
  {| ev_id := orUndefined (gestureId state);
     ev_type := d_type d;
     ev_confidence := confidence state;
     ev_normalizedPosition := position state;
     ev_handedness := r_handedness result;
     ev_timestamp := r_timestamp result;
     ev_data := d_data d |}.

(** [processHandGestures] from line 55 on, for the state object of the
    hand: the new contents of that object and the event handed to
    [emitGestureEvent], if any. *)
Definition processState (l : t) (now : Z) (rnd : string)
    (result : HandTrackingResult) (state : GestureState)
  : GestureState * option GestureEvent :=
  let landmarks := r_landmarks result in
  let state1 := updateMotion (smoothingFactor l) (palmCenter landmarks) state in
  match detectGesture landmarks state1 with
  | Some detectedGesture =>
      let state2 := updateIdentity now rnd detectedGesture state1 in
      if gate l now state2
      then (state2, Some (gestureEvent result detectedGesture state2))
      else (state2, None)
  | None => (resetGesture state1, None)
  end.

(** The type classified for a frame, given the state the hand had before
    it: the gesture that [detectGesture] reports after the motion update,
    or none. *)
Definition classified (l : t) (result : HandTrackingResult)
    (state : GestureState) : option GestureType :=
  d_type <$> detectGesture (r_landmarks result)
               (updateMotion (smoothingFactor l)
                  (palmCenter (r_landmarks result)) state).

(** What one call of [processHandGestures] did. *)
Record Outcome := mkOutcome {
  layer : t;
  emitted : option GestureEvent;
  invoked : list nat;
  completion : Completion
}.

Definition withStates (l : t) (states : gmap string GestureState) : t :=
  {| callbacks := callbacks l;
     gestureStates := states;
     smoothingFactor := smoothingFactor l;
     confidenceThreshold := confidenceThreshold l;
     gestureHoldTime := gestureHoldTime l |}.

Definition processHandGestures (l : t) (now : Z) (rnd : string)
    (result : HandTrackingResult) (handKey : string) : Outcome :=
  if (length (r_landmarks result) <? 21)%nat
  then mkOutcome l None [] Normal
  else
    let state := default freshState (gestureStates l !! handKey) in
    let '(state', event) := processState l now rnd result state in
    let l' := withStates l (<[handKey := state']> (gestureStates l)) in
    match event with
    | Some e =>
        let '(called, c) := emitGestureEvent l' e in
        mkOutcome l' (Some e) called c
    | None => mkOutcome l' None [] Normal
    end.

(** One frame of one hand: the readings of the clock and of the random
    source that the call may consume, and the observation. *)
Record Frame := mkFrame {
  f_now : Z;
  f_rnd : string;
  f_result : HandTrackingResult
}.

(** [processHandTracking]: the hands of a frame in order, keyed by
    their handedness label; an exception thrown by a subscriber leaves
    the loop. *)
Fixpoint processHandTracking (l : t) (results : list Frame)
  : t * list GestureEvent * Completion :=
  match results with
  | [] => (l, [], Normal)
  | f :: rest =>
      let o := processHandGestures l (f_now f) (f_rnd f) (f_result f)
                 (handednessLabel (r_handedness (f_result f))) in
      match completion o with
      | Thrown => (layer o, option_list (emitted o), Thrown)
      | Normal =>
          let '(l', events, c) := processHandTracking (layer o) rest in
          (l', option_list (emitted o) ++ events, c)
      end
  end.

(** The state object that [processHandGestures] works on for a hand key:
    the stored one, or the one it creates at the first sighting. *)
Definition storedState (l : t) (handKey : string) : GestureState :=
  default freshState (gestureStates l !! handKey).

(** One call of [processHandGestures], for the frame [f] of a hand. *)
Definition step (l : t) (f : Frame) (handKey : string) : Outcome :=
  processHandGestures l (f_now f) (f_rnd f) (f_result f) handKey.

(** Successive calls of [processHandGestures] under one hand key; the
    layer after the last one. *)
Fixpoint runHand (l : t) (frames : list Frame) (handKey : string) : t :=
  match frames with
  | [] => l
  | f :: rest => runHand (layer (step l f handKey)) rest handKey
  end.

(** The frame passes the landmark guard of [processHandGestures]. *)
Definition complete (f : Frame) : Prop :=
  (21 <= length (r_landmarks (f_result f)))%nat.

(** The frame leaves the classified type of the hand as it is: the guard
    drops it, or the type classified for it is the hand's current one. *)
Definition keepsType (l : t) (f : Frame) (handKey : string) : Prop :=
  ~ complete f
  \/ classified l (f_result f) (storedState l handKey)
     = lastGesture (storedState l handKey).

(** No frame of the run changes the classified type of the hand. *)
Fixpoint steady (l : t) (frames : list Frame) (handKey : string) : Prop :=
  match frames with
  | [] => True
  | f :: rest =>
      keepsType l f handKey /\ steady (layer (step l f handKey)) rest handKey
  end.

(** The hand has the gesture [type], if any, under the identity that
    started at time [start] with id [id]. *)
Definition identityFrom (type : option GestureType) (start : Z) (id : string)
    (state : GestureState) : Prop :=
  lastGesture state = type
  /\ (is_Some type ->
      gestureStartTime state = start /\ gestureId state = Some id).

(** A hand with thumb and index extended, fewer than four fingers extended
    in all, and the two tips at the given distance. *)
Definition pinching (tipDistance : Q) (landmarks : list HandLandmark) : Prop :=
  (extendedFingers landmarks < 4)%Z
  /\ extension landmarks 0 = 1%Z
  /\ extension landmarks 1 = 1%Z
  /\ (distance (landmark landmarks 4) (landmark landmarks 8) == tipDistance)%Q.

(** A frame that passes the landmark guard and shows such a hand. *)
Definition pinchFrame (tipDistance : Q) (f : Frame) : Prop :=
  complete f /\ pinching tipDistance (r_landmarks (f_result f)).

(** The hand is in a pinch that started at [start] under identity [id]. *)
Definition pinchHeld (start : Z) (id : string) (state : GestureState) : Prop :=
  lastGesture state = Some pinch
  /\ gestureStartTime state = start
  /\ gestureId state = Some id
  /\ (0.9 <= confidence state)%Q.

(** The function returned by [onGestureEvent]: it removes the callback
    at the index where [indexOf] finds it. *)
Definition unsubscribe (index : nat) (l : t) : t :=
  {| callbacks := delete index (callbacks l);
     gestureStates := gestureStates l;
     smoothingFactor := smoothingFactor l;
     confidenceThreshold := confidenceThreshold l;
     gestureHoldTime := gestureHoldTime l |}.

(** The layers that the public interface can produce. *)
Inductive reachable : t -> Prop :=
  | reach_new config : reachable (new config)
  | reach_updateConfig config l :
      reachable l -> reachable (updateConfig config l)
  | reach_onGestureEvent callback l :
      reachable l -> reachable (onGestureEvent callback l)
  | reach_unsubscribe index l :
      reachable l -> reachable (unsubscribe index l)
  | reach_destroy l :
      reachable l -> reachable (destroy l)
  | reach_process l now rnd result handKey :
      reachable l ->
      reachable (layer (processHandGestures l now rnd result handKey)).

(** A hand has an identity exactly when it has a current gesture. *)
Definition coherent (state : GestureState) : Prop :=
  lastGesture state = None <-> gestureId state = None.

End Classifier.

End InputAbstractionLayer.


(** ** GestureMapper *)

(** A JavaScript [Map] with string keys in insertion order: [set] on a
    present key replaces the value in place, on a new key appends. *)
Fixpoint mapSet {V} (k : string) (v : V) (m : list (string * V))
  : list (string * V) :=
  match m with
  | [] => [(k, v)]
  | (k', v') :: rest =>
      if decide (k' = k) then (k, v) :: rest else (k', v') :: mapSet k v rest
  end.


Module GestureMapper.

(** The registered policies. The three closures that
    [setupDefaultPolicies] installs read the mapper's live fields; a policy
    added through [addPolicy] is a predicate on the event. *)
Inductive Policy :=
  | ConfidencePolicy
  | RateLimitPolicy
  | ContextPolicy
  | CustomPolicy (policy : GestureEvent -> bool).

Record t := mkMapper {
  mappings : gmap GestureType GestureMapping;
  callbacks : list (Callback (string * GestureEvent));
  policies : list (string * Policy);
  defaultConfidenceThreshold : Q;
  (** the [lastActionTimes] map captured by the rate-limit closure *)
  lastActionTimes : gmap GestureType Z
}.

Definition defaultMappings : list GestureMapping :=
  [ mkMapping open_palm "open-launcher" None (Some true) None None None;
    mkMapping pinch "drag" (Some true) None (Some 80%Z) None None;
    mkMapping push_forward "click" (Some true) None None None None;
    mkMapping swipe_left "prev-desktop" None (Some true) None None None;
    mkMapping swipe_right "next-desktop" None (Some true) None None None;
    mkMapping two_finger_pinch "minimize" (Some true) None None None None;
    mkMapping two_finger_spread "maximize" (Some true) None None None None;
    mkMapping closed_fist "grab" (Some true) None None None None ].

Definition withMappings (m : t) (table : gmap GestureType GestureMapping) : t :=
  {| mappings := table;
     callbacks := callbacks m;
     policies := policies m;
     defaultConfidenceThreshold := defaultConfidenceThreshold m;
     lastActionTimes := lastActionTimes m |}.

Definition withPolicies (m : t) (ps : list (string * Policy)) : t :=
  {| mappings := mappings m;
     callbacks := callbacks m;
     policies := ps;
     defaultConfidenceThreshold := defaultConfidenceThreshold m;
     lastActionTimes := lastActionTimes m |}.

Definition withLastActionTimes (m : t) (times : gmap GestureType Z) : t :=
  {| mappings := mappings m;
     callbacks := callbacks m;
     policies := policies m;
     defaultConfidenceThreshold := defaultConfidenceThreshold m;
     lastActionTimes := times |}.

Definition setupDefaultMappings (m : t) : t :=
  withMappings m
    (fold_left (fun table mapping => <[gm_gesture mapping := mapping]> table)
               defaultMappings (mappings m)).

(** The policy table after [setupDefaultPolicies] on an empty table. *)
Definition defaultPolicies : list (string * Policy) :=
  [ ("confidence", ConfidencePolicy);
    ("rateLimit", RateLimitPolicy);
    ("context", ContextPolicy) ].

Definition setupDefaultPolicies (m : t) : t :=
  withLastActionTimes
    (withPolicies m
       (mapSet "context" ContextPolicy
          (mapSet "rateLimit" RateLimitPolicy
             (mapSet "confidence" ConfidencePolicy (policies m)))))
    ∅.

(** [new GestureMapper(config)]. *)
Definition new (confidenceThreshold : option Q) : t :=
  setupDefaultPolicies
    (setupDefaultMappings
       {| mappings := ∅;
          callbacks := [];
          policies := [];
          defaultConfidenceThreshold := default 0.8%Q confidenceThreshold;
          lastActionTimes := ∅ |}).

(** The confidence policy:
    [mapping?.confidenceThreshold || this.defaultConfidenceThreshold]. *)
Definition confidencePolicy (m : t) (event : GestureEvent) : bool :=
  let mapping := mappings m !! ev_type event in
  let threshold :=
    orQ (mapping ≫= gm_confidenceThreshold) (defaultConfidenceThreshold m) in
  Qgeb (ev_confidence event) threshold.

(** The rate-limit policy: the timestamp is stored when the gap test
    passes, inside the policy itself. *)
Definition rateLimitPolicy (m : t) (now : Z) (event : GestureEvent) : t * bool :=
  let lastTime := orZ (lastActionTimes m !! ev_type event) 0 in
  let minInterval := 200%Z in
  if (minInterval <=? now - lastTime)%Z
  then (withLastActionTimes m (<[ev_type event := now]> (lastActionTimes m)), true)
  else (m, false).

Definition truthy (b : option bool) : bool := default false b.

Definition contextPolicy (m : t) (event : GestureEvent) : bool :=
  match mappings m !! ev_type event with
  | None => false
  | Some mapping =>
      if truthy (gm_global mapping) then true
      else if truthy (gm_requireFocus mapping) then true
      else true
  end.

Definition evalPolicy (m : t) (now : Z) (p : Policy) (event : GestureEvent)
  : t * bool :=
  match p with
  | ConfidencePolicy => (m, confidencePolicy m event)
  | RateLimitPolicy => rateLimitPolicy m now event
  | ContextPolicy => (m, contextPolicy m event)
  | CustomPolicy policy => (m, policy event)
  end.

(** [Array.from(this.policies.values()).map(policy => policy(event))]:
    every policy runs, in insertion order, whatever the others returned. *)
Fixpoint evalPolicies (m : t) (now : Z) (ps : list (string * Policy))
    (event : GestureEvent) : t * list bool :=
  match ps with
  | [] => (m, [])
  | (_, p) :: rest =>
      let '(m1, r) := evalPolicy m now p event in
      let '(m2, rs) := evalPolicies m1 now rest event in
      (m2, r :: rs)
  end.

Definition emitAction (m : t) (action : string) (event : GestureEvent)
  : list nat * Completion :=
  forEach (callbacks m) (action, event).

(** What one call of [processGesture] did: the mapper afterwards, the
    arguments of [emitAction] when it was reached, the subscribers it
    invoked and how the call completed. *)
Record Outcome := mkOutcome {
  mapper : t;
  dispatched : option (string * GestureEvent);
  invoked : list nat;
  completion : Completion
}.

Definition processGesture (m : t) (now : Z) (event : GestureEvent) : Outcome :=
  match mappings m !! ev_type event with
  | None => mkOutcome m None [] Normal
  | Some mapping =>
      let '(m', policyResults) := evalPolicies m now (policies m) event in
      let allPoliciesPassed := forallb (fun result => result) policyResults in
      if negb allPoliciesPassed
      then mkOutcome m' None [] Normal
      else
        let '(called, c) := emitAction m' (gm_action mapping) event in
        mkOutcome m' (Some (gm_action mapping, event)) called c
  end.

Definition onAction (callback : Callback (string * GestureEvent)) (m : t) : t :=
  {| mappings := mappings m;
     callbacks := callbacks m ++ [callback];
     policies := policies m;
     defaultConfidenceThreshold := defaultConfidenceThreshold m;
     lastActionTimes := lastActionTimes m |}.

(** [addMapping(gestureType, mapping)] stores
    [{ gesture: gestureType, ...mapping }]. *)
Definition addMapping (gestureType : GestureType) (mapping : GestureMapping)
    (m : t) : t :=
  withMappings m
    (<[gestureType :=
         mkMapping gestureType (gm_action mapping) (gm_requireFocus mapping)
           (gm_global mapping) (gm_holdMillis mapping)
           (gm_confidenceThreshold mapping) (gm_continuous mapping)]>
       (mappings m)).

Definition removeMapping (gestureType : GestureType) (m : t) : t :=
  withMappings m (delete gestureType (mappings m)).

Definition addPolicy (name : string) (policy : GestureEvent -> bool) (m : t) : t :=
  withPolicies m (mapSet name (CustomPolicy policy) (policies m)).


Definition destroy (m : t) : t :=
  {| mappings := ∅;
     callbacks := [];
     policies := [];
     defaultConfidenceThreshold := defaultConfidenceThreshold m;
     lastActionTimes := lastActionTimes m |}.

End GestureMapper.


(** ** WindowManager (drag sessions) *)

Module WindowManager.

Record WebOSWindow := mkWindow {
  w_id : string;
  w_title : string;
  w_position : Point;
  w_zIndex : Z;
  w_minimized : bool;
  w_maximized : bool;
  w_focused : bool
}.

(** The part of the system store that the drag code reads and writes. *)
Record Store := mkStore {
  windows : list WebOSWindow;
  focusedWindowId : option string
}.

(** [get().windows.find(w => w.id === windowId)]. *)
Definition getWindow (store : Store) (windowId : string) : option WebOSWindow :=
  List.find (fun w => bool_decide (w_id w = windowId)) (windows store).

Definition setPosition (w : WebOSWindow) (p : Point) : WebOSWindow :=
  {| w_id := w_id w;
     w_title := w_title w;
     w_position := p;
     w_zIndex := w_zIndex w;
     w_minimized := w_minimized w;
     w_maximized := w_maximized w;
     w_focused := w_focused w |}.

(** [store.updateWindow(windowId, { position })]. *)
Definition updateWindow (store : Store) (windowId : string) (p : Point) : Store :=
  {| windows :=
       List.map (fun w => if bool_decide (w_id w = windowId)
                          then setPosition w p else w)
                (windows store);
     focusedWindowId := focusedWindowId store |}.

Record DragState := mkDrag {
  isDragging : bool;
  windowId : option string;
  startPosition : Point;
  offset : Point;
  gestureSequenceId : option string
}.

Definition idleDrag : DragState :=
  {| isDragging := false;
     windowId := None;
     startPosition := mkPoint 0 0;
     offset := mkPoint 0 0;
     gestureSequenceId := None |}.

Record t := mkManager {
  dragState : DragState;
  (** whether the 200 ms inactivity timer is pending *)
  dragTimeout : bool;
  nextZIndex : Z
}.

Definition new : t :=
  {| dragState := idleDrag; dragTimeout := false; nextZIndex := 1000 |}.

(** [window.innerWidth], [window.innerHeight]. *)
Record Viewport := mkViewport { innerWidth : Q; innerHeight : Q }.

(** A window id used as a condition: [null] and the empty string are
    falsy. *)
Definition present (id : option string) : option string := orUndefined id.

Definition constrain (view : Viewport) (p : Point) : Point :=
  {| pt_x := Qmax 0 (Qmin (pt_x p) (innerWidth view - 200));
     pt_y := Qmax 0 (Qmin (pt_y p) (innerHeight view - 50)) |}.

Definition updateWindowPosition (view : Viewport) (store : Store)
    (windowId : string) (p : Point) : Store :=
  updateWindow store windowId (constrain view p).

Definition screenPosition (view : Viewport) (event : GestureEvent) : Point :=
  {| pt_x := pt_x (ev_normalizedPosition event) * innerWidth view;
     pt_y := pt_y (ev_normalizedPosition event) * innerHeight view |}.

Definition endDrag (wm : t) : t :=
  {| dragState := idleDrag; dragTimeout := false; nextZIndex := nextZIndex wm |}.

(** The inactivity timer fires. *)
Definition timeoutFires (wm : t) : t :=
  if dragTimeout wm then endDrag wm else wm.

Definition handleDragGesture (view : Viewport) (wm : t) (store : Store)
    (event : GestureEvent) : t * Store :=
  let screen := screenPosition view event in
  let drag := dragState wm in
  let continuing :=
    match present (windowId drag) with
    | Some id =>
        if isDragging drag
           && bool_decide (gestureSequenceId drag = ev_id event)
        then Some id else None
    | None => None
    end in
  match continuing with
  | Some id =>
      let target :=
        {| pt_x := pt_x screen - pt_x (offset drag);
           pt_y := pt_y screen - pt_y (offset drag) |} in
      ({| dragState := drag; dragTimeout := true; nextZIndex := nextZIndex wm |},
       updateWindowPosition view store id target)
  | None =>
      let opened :=
        match present (focusedWindowId store) with
        | Some id =>
            match getWindow store id with
            | Some windowObj =>
                {| isDragging := true;
                   windowId := Some id;
                   startPosition := screen;
                   offset :=
                     {| pt_x := pt_x screen - pt_x (w_position windowObj);
                        pt_y := pt_y screen - pt_y (w_position windowObj) |};
                   gestureSequenceId := ev_id event |}
            | None => drag
            end
        | None => drag
        end in
      ({| dragState := opened; dragTimeout := true; nextZIndex := nextZIndex wm |},
       store)
  end.


(** Mouse-based [startDrag(windowId, position)]. *)
Definition startDrag (wm : t) (store : Store) (id : string) (pos : Point) : t :=
  match getWindow store id with
  | Some window =>
      {| dragState :=
           {| isDragging := true;
              windowId := Some id;
              startPosition := pos;
              offset :=
                {| pt_x := pt_x pos - pt_x (w_position window);
                   pt_y := pt_y pos - pt_y (w_position window) |};
              gestureSequenceId := None |};
         dragTimeout := dragTimeout wm;
         nextZIndex := nextZIndex wm |}
  | None => wm
  end.

End WindowManager.


(** ** HandTrackingEngine (handedness label of a detected hand) *)

Module HandTrackingEngine.

(** [determineHandedness(landmarks, index)] under the configured
    [flipHorizontal]. *)
Definition determineHandedness (flipHorizontal : bool)
    (landmarks : list HandLandmark) (index : nat) : Handedness :=
  if (21 <=? length landmarks)%nat
  then
    let thumb := InputAbstractionLayer.landmark landmarks 4 in
    let pinky := InputAbstractionLayer.landmark landmarks 20 in
    if flipHorizontal
    then (if Qltb (lm_x pinky) (lm_x thumb) then Left else Right)
    else (if Qltb (lm_x thumb) (lm_x pinky) then Left else Right)
  else if (index mod 2 =? 0)%nat then Right else Left.

End HandTrackingEngine.

(** ** SystemStore (window list and focus) *)

Module SystemStore.

Import WindowManager.

(** [updateWindow(windowId, updates)]: every window with that id becomes
    [{ ...w, ...updates }], given here as a function on the window. *)
Definition updateWindowWith (store : Store) (id : string)
    (updates : WebOSWindow -> WebOSWindow) : Store :=
  {| windows :=
       List.map (fun w => if bool_decide (w_id w = id) then updates w else w)
                (windows store);
     focusedWindowId := focusedWindowId store |}.

Definition setFocused (w : WebOSWindow) (b : bool) : WebOSWindow :=
  {| w_id := w_id w;
     w_title := w_title w;
     w_position := w_position w;
     w_zIndex := w_zIndex w;
     w_minimized := w_minimized w;
     w_maximized := w_maximized w;
     w_focused := b |}.

(** [setFocusedWindow(windowId)]: [focused: w.id === windowId] on every
    window. *)
Definition setFocusedWindow (store : Store) (id : option string) : Store :=
  {| windows :=
       List.map (fun w => setFocused w (bool_decide (Some (w_id w) = id)))
                (windows store);
     focusedWindowId := id |}.

Definition removeWindow (store : Store) (id : string) : Store :=
  {| windows :=
       List.filter (fun w => negb (bool_decide (w_id w = id))) (windows store);
     focusedWindowId :=
       if bool_decide (focusedWindowId store = Some id)
       then None else focusedWindowId store |}.

End SystemStore.

(** ** WindowManager (focus, minimize, close, mouse drag) *)

Module WindowControls.

Import WindowManager.

Definition withNextZIndex (wm : t) (z : Z) : t :=
  {| dragState := dragState wm; dragTimeout := dragTimeout wm; nextZIndex := z |}.

(** [{ zIndex: this.nextZIndex++, focused: true }]. *)
Definition raised (z : Z) (w : WebOSWindow) : WebOSWindow :=
  {| w_id := w_id w;
     w_title := w_title w;
     w_position := w_position w;
     w_zIndex := z;
     w_minimized := w_minimized w;
     w_maximized := w_maximized w;
     w_focused := true |}.

(** [{ minimized: true, focused: false }]. *)
Definition minimized (w : WebOSWindow) : WebOSWindow :=
  {| w_id := w_id w;
     w_title := w_title w;
     w_position := w_position w;
     w_zIndex := w_zIndex w;
     w_minimized := true;
     w_maximized := w_maximized w;
     w_focused := false |}.

Definition focusWindow (wm : t) (store : Store) (id : string) : t * Store :=
  match getWindow store id with
  | Some _ =>
      (withNextZIndex wm (nextZIndex wm + 1),
       SystemStore.setFocusedWindow
         (SystemStore.updateWindowWith store id (raised (nextZIndex wm)))
         (Some id))
  | None => (wm, store)
  end.

Definition closeWindow (store : Store) (id : string) : Store :=
  SystemStore.removeWindow store id.

(** [windows.sort((a, b) => b.zIndex - a.zIndex)]: descending z-index,
    windows of equal z-index in their original order (the sort is
    stable). *)
Fixpoint insertByZIndex (w : WebOSWindow) (sorted : list WebOSWindow)
  : list WebOSWindow :=
  match sorted with
  | [] => [w]
  | v :: rest =>
      if (w_zIndex w <? w_zIndex v)%Z
      then v :: insertByZIndex w rest
      else w :: v :: rest
  end.

Definition sortByZIndex (ws : list WebOSWindow) : list WebOSWindow :=
  fold_right insertByZIndex [] ws.

(** [minimizeWindow(windowId)]. The candidates for the focus are read from
    the state object fetched at the start of the method. *)
Definition minimizeWindow (wm : t) (store : Store) (id : string) : t * Store :=
  let store1 := SystemStore.updateWindowWith store id minimized in
  let candidates :=
    List.filter (fun w => negb (w_minimized w) && negb (bool_decide (w_id w = id)))
                (windows store) in
  match sortByZIndex candidates with
  | nextWindow :: _ => focusWindow wm store1 (w_id nextWindow)
  | [] => (wm, SystemStore.setFocusedWindow store1 None)
  end.

(** [getDefaultWindowPosition]: windows cascade by 30 px, ten to a round. *)
Definition getDefaultWindowPosition (store : Store) : Point :=
  let offset := ((Z.of_nat (length (windows store)) mod 10) * 30)%Z in
  {| pt_x := inject_Z (100 + offset); pt_y := inject_Z (100 + offset) |}.

(** [handleMouseDown]: [target] is the id of the window element under the
    pointer, if any, and [onTitleBar] whether the pointer is on its title
    bar. *)
Definition handleMouseDown (wm : t) (store : Store) (target : option string)
    (onTitleBar : bool) (client : Point) : t * Store :=
  match target with
  | Some id =>
      let '(wm1, store1) := focusWindow wm store id in
      if onTitleBar then (startDrag wm1 store1 id client, store1)
      else (wm1, store1)
  | None => (wm, store)
  end.

Definition handleMouseMove (view : Viewport) (wm : t) (store : Store)
    (client : Point) : Store :=
  match present (windowId (dragState wm)) with
  | Some id =>
      if isDragging (dragState wm)
      then updateWindowPosition view store id
             {| pt_x := pt_x client - pt_x (offset (dragState wm));
                pt_y := pt_y client - pt_y (offset (dragState wm)) |}
      else store
  | None => store
  end.

Definition handleMouseUp (wm : t) : t :=
  if isDragging (dragState wm) then endDrag wm else wm.

End WindowControls.


(** ** Derived notions used in the statements below *)

(** The confidence that [detectGesture] attaches to each type it reports. *)
Definition typeConfidence (g : GestureType) : Q :=
  match g with
  | open_palm | closed_fist | pinch => 0.9
  | thumbs_up => 0.85
  | _ => 0.8
  end.


(** ** Sample inputs

    Concrete hands, events and windows on which the functions above are
    evaluated. *)

(** [Math.sqrt] cut to six decimals; exact on the squares used below. *)
Definition sqrt6 (q : Q) : Q :=
  (Z.sqrt (Qnum q * 10 ^ 12 / Zpos (Qden q)) # 1000000)%Q.

Definition handOf (point : nat -> HandLandmark) : list HandLandmark :=
  List.map point (seq 0 21).

(** Index finger alone extended, hand at rest at the left edge: no rule
    of the cascade matches. *)
Definition restingHand : list HandLandmark :=
  handOf (fun i => if (i =? 8)%nat then mkLandmark 0 0.3 0 None
                   else mkLandmark 0 0.5 0 None).

(** Thumb and index extended, tips 0.03 apart, the other fingers curled. *)
Definition pinchHand : list HandLandmark :=
  handOf (fun i =>
            if (i =? 4)%nat then mkLandmark 0.53 0.4 0 None
            else if (i =? 8)%nat then mkLandmark 0.5 0.4 0 None
            else if (i =? 0)%nat || (i =? 9)%nat then mkLandmark 0.5 0.7 0 None
            else mkLandmark 0.5 0.5 0 None).

(** Every landmark at the same point: no finger extended. *)
Definition fistHand : list HandLandmark :=
  handOf (fun _ => mkLandmark 0.5 0.5 0 None).

Definition observation (landmarks : list HandLandmark) (timestamp : Z)
  : HandTrackingResult :=
  mkResult landmarks Right 0.8 timestamp.

Definition frameAt (now : Z) (rnd : string) (landmarks : list HandLandmark)
  : InputAbstractionLayer.Frame :=
  InputAbstractionLayer.mkFrame now rnd (observation landmarks now).

Definition sampleEvent (id : string) (type : GestureType) (confidence : Q)
    (x y : Q) : GestureEvent :=
  mkEvent (Some id) type confidence (mkPoint x y) Right 0 None.

Definition sampleView : WindowManager.Viewport :=
  WindowManager.mkViewport 1000 800.

(** One window at (100, 100), focused. *)
Definition sampleStore : WindowManager.Store :=
  WindowManager.mkStore
    [WindowManager.mkWindow "w1" "Files" (mkPoint 100 100) 1000 false false true]
    (Some "w1").

(** The same window with nothing focused, as after it was minimized. *)
Definition unfocusedStore : WindowManager.Store :=
  WindowManager.mkStore
    [WindowManager.mkWindow "w1" "Files" (mkPoint 100 100) 1000 true false false]
    None.

(** Two windows, the second one focused and in front. *)
Definition twoWindowStore : WindowManager.Store :=
  WindowManager.mkStore
    [WindowManager.mkWindow "w1" "Files" (mkPoint 100 100) 1000 false false false;
     WindowManager.mkWindow "w2" "Editor" (mkPoint 130 130) 1001 false false true]
    (Some "w2").

Definition quiet {A} : Callback A := fun _ => Normal.
Definition faulty {A} : Callback A := fun _ => Thrown.


(** * Properties *)

(** ** Subscriber dispatch *)

Lemma forEachFrom_all_return {A} (callbacks : list (Callback A)) (arg : A) (i : nat) :
  Forall (fun callback => callback arg = Normal) callbacks ->
  forEachFrom i callbacks arg = (seq i (length callbacks), Normal).
Proof.
  intros Hall. revert i.
  induction Hall as [|callback rest Hcb _ IH]; intros i; simpl.
  - reflexivity.
  - rewrite Hcb, IH. reflexivity.
Qed.

Lemma forEachFrom_first_throw {A} (before after : list (Callback A))
    (thrower : Callback A) (arg : A) (i : nat) :
  Forall (fun callback => callback arg = Normal) before ->
  thrower arg = Thrown ->
  forEachFrom i (before ++ thrower :: after) arg
  = (seq i (S (length before)), Thrown).
Proof.
  intros Hall Hthrow. revert i.
  induction Hall as [|callback rest Hcb _ IH]; intros i; simpl.
  - rewrite Hthrow. reflexivity.
  - rewrite Hcb, IH. reflexivity.
Qed.

(** C1 (the code against the claim). When a subscriber throws, both
    [GestureMapper.emitAction] and [InputAbstractionLayer.emitGestureEvent]
    stop at it: the subscribers registered before it and the thrower are
    the only ones invoked, none of the later ones is, and the dispatch
    completes by throwing. *)
Theorem C1_throwing_subscriber_ends_dispatch
    (m : GestureMapper.t) (l : InputAbstractionLayer.t)
    (action : string) (event : GestureEvent)
    (before after : list (Callback (string * GestureEvent)))
    (thrower : Callback (string * GestureEvent))
    (before' after' : list (Callback GestureEvent))
    (thrower' : Callback GestureEvent) :
  GestureMapper.callbacks m = before ++ thrower :: after ->
  Forall (fun callback => callback (action, event) = Normal) before ->
  thrower (action, event) = Thrown ->
  InputAbstractionLayer.callbacks l = before' ++ thrower' :: after' ->
  Forall (fun callback => callback event = Normal) before' ->
  thrower' event = Thrown ->
  GestureMapper.emitAction m action event
    = (seq 0 (S (length before)), Thrown)
  /\ InputAbstractionLayer.emitGestureEvent l event
    = (seq 0 (S (length before')), Thrown).
Proof.
  intros Hm Hbefore Hthrow Hl Hbefore' Hthrow'.
  unfold GestureMapper.emitAction, InputAbstractionLayer.emitGestureEvent, forEach.
  rewrite Hm, Hl. split.
  - apply forEachFrom_first_throw; assumption.
  - apply forEachFrom_first_throw; assumption.
Qed.

(** Three subscribers, the second one throws: the third is never called. *)
Lemma C1_throwing_subscriber_witness :
  GestureMapper.emitAction
    (GestureMapper.onAction quiet
       (GestureMapper.onAction faulty
          (GestureMapper.onAction quiet (GestureMapper.new None))))
    "drag" (sampleEvent "a" pinch 0.9 0.5 0.5)
    = ([0; 1]%nat, Thrown)
  /\ InputAbstractionLayer.emitGestureEvent
       (InputAbstractionLayer.onGestureEvent quiet
          (InputAbstractionLayer.onGestureEvent faulty
             (InputAbstractionLayer.onGestureEvent quiet
                (InputAbstractionLayer.new None))))
       (sampleEvent "a" pinch 0.9 0.5 0.5)
    = ([0; 1]%nat, Thrown).
Proof.
  apply (C1_throwing_subscriber_ends_dispatch _ _ "drag" _
           [quiet] [quiet] faulty [quiet] [quiet] faulty).
  - reflexivity.
  - repeat constructor.
  - reflexivity.
  - reflexivity.
  - repeat constructor.
  - reflexivity.
Defined.


(** ** The classifier *)

Import InputAbstractionLayer.

Lemma Qgeb_true_iff (a b : Q) : Qgeb a b = true <-> (b <= a)%Q.
Proof. unfold Qgeb. apply Qle_bool_iff. Qed.

Lemma Qltb_true_iff (a b : Q) : Qltb a b = true <-> (a < b)%Q.
Proof.
  unfold Qltb. rewrite negb_true_iff. split.
  - intros H. apply Qnot_le_lt. intros Hle.
    apply Qle_bool_iff in Hle. congruence.
  - intros H. destruct (Qle_bool b a) eqn:E; [|reflexivity].
    apply Qle_bool_iff in E. exfalso. eapply Qlt_not_le; eassumption.
Qed.

Lemma gate_true_iff (l : t) (now : Z) (state : GestureState) :
  gate l now state = true
  <-> (confidenceThreshold l <= confidence state)%Q
      /\ (gestureHoldTime l <= now - gestureStartTime state)%Z.
Proof.
  unfold gate. rewrite andb_true_iff, Qgeb_true_iff, Z.leb_le. reflexivity.
Qed.

Lemma updateIdentity_lastGesture (now : Z) (rnd : string) (d : Detection)
    (state : GestureState) :
  lastGesture (updateIdentity now rnd d state) = Some (d_type d).
Proof.
  unfold updateIdentity. destruct (decide _) as [Heq|Hne]; simpl; auto.
Qed.

Lemma processState_lastGesture (sqrt : Q -> Q) (l : t) (now : Z) (rnd : string)
    (result : HandTrackingResult) (state : GestureState) :
  lastGesture (processState sqrt l now rnd result state).1
  = classified sqrt l result state.
Proof.
  unfold processState, classified.
  destruct (detectGesture _ _ _) as [d|]; simpl.
  - destruct (gate _ _ _); simpl; apply updateIdentity_lastGesture.
  - reflexivity.
Qed.

Lemma processState_emits_iff (sqrt : Q -> Q) (l : t) (now : Z) (rnd : string)
    (result : HandTrackingResult) (state : GestureState) :
  let out := processState sqrt l now rnd result state in
  is_Some out.2
  <-> is_Some (lastGesture out.1)
      /\ (confidenceThreshold l <= confidence out.1)%Q
      /\ (gestureHoldTime l <= now - gestureStartTime out.1)%Z.
Proof.
  unfold processState.
  destruct (detectGesture _ _ _) as [d|]; simpl.
  - destruct (gate _ _ _) eqn:Hgate; simpl.
    + apply gate_true_iff in Hgate. rewrite updateIdentity_lastGesture.
      split; intros _; [split; eauto | eauto].
    + split.
      * intros [e He]. discriminate.
      * intros [_ Hg]. apply gate_true_iff in Hg. congruence.
  - split.
    + intros [e He]. discriminate.
    + intros [[g Hg] _]. discriminate.
Qed.

(** What [processHandGestures] stores and emits once the landmark guard is
    passed. *)
Lemma processHandGestures_processed (sqrt : Q -> Q) (l : t) (now : Z)
    (rnd : string) (result : HandTrackingResult) (handKey : string) :
  (21 <= length (r_landmarks result))%nat ->
  let o := processHandGestures sqrt l now rnd result handKey in
  let out := processState sqrt l now rnd result
               (default freshState (gestureStates l !! handKey)) in
  gestureStates (layer o) !! handKey = Some out.1
  /\ emitted o = out.2
  /\ (forall other, other <> handKey ->
        gestureStates (layer o) !! other = gestureStates l !! other).
Proof.
  intros Hlen. unfold processHandGestures.
  destruct (Nat.ltb_spec (length (r_landmarks result)) 21) as [Hlt|_]; [lia|].
  destruct (processState _ _ _ _ _ _) as [state' event]. simpl.
  destruct event as [e|].
  - destruct (emitGestureEvent _ _) as [called c]. simpl.
    split; [apply lookup_insert_eq|]. split; [reflexivity|].
    intros other Hne. apply lookup_insert_ne. congruence.
  - simpl. split; [apply lookup_insert_eq|]. split; [reflexivity|].
    intros other Hne. apply lookup_insert_ne. congruence.
Qed.

Lemma processHandGestures_config (sqrt : Q -> Q) (l : t) (now : Z)
    (rnd : string) (result : HandTrackingResult) (handKey : string) :
  let l' := layer (processHandGestures sqrt l now rnd result handKey) in
  callbacks l' = callbacks l
  /\ smoothingFactor l' = smoothingFactor l
  /\ confidenceThreshold l' = confidenceThreshold l
  /\ gestureHoldTime l' = gestureHoldTime l.
Proof.
  unfold processHandGestures.
  destruct (length (r_landmarks result) <? 21)%nat; simpl.
  - repeat split; reflexivity.
  - destruct (processState _ _ _ _ _ _) as [state' event].
    destruct event as [e|]; simpl.
    + destruct (emitGestureEvent _ _). simpl. repeat split; auto.
    + repeat split; auto.
Qed.

Lemma processState_event (sqrt : Q -> Q) (l : t) (now : Z) (rnd : string)
    (result : HandTrackingResult) (state : GestureState) (e : GestureEvent) :
  let out := processState sqrt l now rnd result state in
  out.2 = Some e ->
  lastGesture out.1 = Some (ev_type e)
  /\ ev_confidence e = confidence out.1
  /\ ev_normalizedPosition e = position out.1
  /\ ev_handedness e = r_handedness result
  /\ ev_timestamp e = r_timestamp result
  /\ gate l now out.1 = true.
Proof.
  unfold processState.
  destruct (detectGesture _ _ _) as [d|]; simpl; [|discriminate].
  destruct (gate _ _ _) eqn:Hgate; simpl; [|discriminate].
  intros He. injection He as <-. simpl.
  rewrite updateIdentity_lastGesture. repeat split; auto.
Qed.

Lemma processHandGestures_emitted (sqrt : Q -> Q) (l : t) (now : Z)
    (rnd : string) (result : HandTrackingResult) (handKey : string)
    (e : GestureEvent) :
  emitted (processHandGestures sqrt l now rnd result handKey) = Some e ->
  (21 <= length (r_landmarks result))%nat
  /\ (processState sqrt l now rnd result
        (default freshState (gestureStates l !! handKey))).2 = Some e.
Proof.
  unfold processHandGestures.
  destruct (Nat.ltb_spec (length (r_landmarks result)) 21) as [Hlt|Hge]; simpl.
  - discriminate.
  - destruct (processState _ _ _ _ _ _) as [state' event]. simpl.
    destruct event as [e'|]; simpl.
    + destruct (emitGestureEvent _ _). simpl. intros H. split; [lia|exact H].
    + discriminate.
Qed.

(** ** Runs of one hand *)

Lemma step_dropped (sqrt : Q -> Q) (l : t) (f : Frame) (handKey : string) :
  ~ complete f -> layer (step sqrt l f handKey) = l.
Proof.
  unfold complete, step, processHandGestures. intros Hshort.
  destruct (Nat.ltb_spec (length (r_landmarks (f_result f))) 21) as [_|Hge];
    [reflexivity|contradiction].
Qed.

Lemma step_complete (sqrt : Q -> Q) (l : t) (f : Frame) (handKey : string) :
  complete f ->
  let out := processState sqrt l (f_now f) (f_rnd f) (f_result f)
               (storedState l handKey) in
  storedState (layer (step sqrt l f handKey)) handKey = out.1
  /\ emitted (step sqrt l f handKey) = out.2.
Proof.
  intros Hlen.
  destruct (processHandGestures_processed sqrt l (f_now f) (f_rnd f)
              (f_result f) handKey Hlen) as (Hstate & Hemitted & _).
  unfold storedState, step. rewrite Hstate. simpl. split; [reflexivity|].
  exact Hemitted.
Qed.

Lemma runHand_config (sqrt : Q -> Q) (frames : list Frame) (l : t)
    (handKey : string) :
  confidenceThreshold (runHand sqrt l frames handKey) = confidenceThreshold l
  /\ gestureHoldTime (runHand sqrt l frames handKey) = gestureHoldTime l.
Proof.
  revert l. induction frames as [|f rest IH]; intros l; simpl.
  - split; reflexivity.
  - destruct (IH (layer (step sqrt l f handKey))) as [Hthr Hhold].
    destruct (processHandGestures_config sqrt l (f_now f) (f_rnd f)
                (f_result f) handKey) as (_ & _ & Hthr' & Hhold').
    unfold step in *. split; congruence.
Qed.

Lemma runHand_app (sqrt : Q -> Q) (before after : list Frame) (l : t)
    (handKey : string) :
  runHand sqrt l (before ++ after) handKey
  = runHand sqrt (runHand sqrt l before handKey) after handKey.
Proof.
  revert l. induction before as [|f rest IH]; intros l; simpl.
  - reflexivity.
  - apply IH.
Qed.

Lemma steady_app (sqrt : Q -> Q) (before after : list Frame) (l : t)
    (handKey : string) :
  steady sqrt l (before ++ after) handKey
  <-> steady sqrt l before handKey
      /\ steady sqrt (runHand sqrt l before handKey) after handKey.
Proof.
  revert l. induction before as [|f rest IH]; intros l; simpl.
  - tauto.
  - rewrite IH. tauto.
Qed.

(** The frame on which the classified type changes starts the identity:
    the start time is the time of that frame and the id the one drawn for
    it. *)
Lemma step_starts_identity (sqrt : Q -> Q) (l : t) (f : Frame)
    (handKey : string) :
  complete f ->
  classified sqrt l (f_result f) (storedState l handKey)
  <> lastGesture (storedState l handKey) ->
  identityFrom (classified sqrt l (f_result f) (storedState l handKey))
    (f_now f) (f_rnd f) (storedState (layer (step sqrt l f handKey)) handKey)
  /\ ((0 < gestureHoldTime l)%Z -> emitted (step sqrt l f handKey) = None).
Proof.
  intros Hlen Hchange.
  destruct (step_complete sqrt l f handKey Hlen) as [Hstate Hemit].
  rewrite Hstate, Hemit. clear Hstate Hemit.
  unfold identityFrom, classified, processState in *.
  destruct (detectGesture _ _ _) as [d|]; simpl in *.
  - assert (Hnew : updateIdentity (f_now f) (f_rnd f) d
               (updateMotion (smoothingFactor l)
                  (palmCenter (r_landmarks (f_result f)))
                  (storedState l handKey))
             = {| lastGesture := Some (d_type d);
                  gestureStartTime := f_now f;
                  gestureId := Some (f_rnd f);
                  confidence := d_confidence d;
                  position := position (updateMotion (smoothingFactor l)
                                (palmCenter (r_landmarks (f_result f)))
                                (storedState l handKey));
                  velocity := velocity (updateMotion (smoothingFactor l)
                                (palmCenter (r_landmarks (f_result f)))
                                (storedState l handKey));
                  previousPosition :=
                    previousPosition (updateMotion (smoothingFactor l)
                                (palmCenter (r_landmarks (f_result f)))
                                (storedState l handKey)) |}).
    { unfold updateIdentity. destruct (decide _) as [Heq|Hne]; simpl in *.
      - exfalso. apply Hchange. symmetry. exact Heq.
      - reflexivity. }
    rewrite Hnew. unfold gate. simpl.
    replace (f_now f - f_now f)%Z with 0%Z by lia.
    destruct (Z.leb_spec (gestureHoldTime l) 0) as [Hle|Hgt].
    + destruct (Qgeb _ _); simpl; (split; [auto|intros; lia]).
    + rewrite andb_false_r. simpl. auto.
  - split; [split; [reflexivity|]|reflexivity].
    intros [g Hg]. discriminate.
Qed.

Lemma complete_dec (f : Frame) : complete f \/ ~ complete f.
Proof. unfold complete. lia. Qed.

(** A frame that keeps the classified type keeps the identity, and what it
    emits has waited for the hold time since the identity started. *)
Lemma step_keeps_identity (sqrt : Q -> Q) (l : t) (f : Frame)
    (handKey : string) (type : option GestureType) (start : Z) (id : string) :
  identityFrom type start id (storedState l handKey) ->
  keepsType sqrt l f handKey ->
  identityFrom type start id (storedState (layer (step sqrt l f handKey)) handKey)
  /\ (forall e, emitted (step sqrt l f handKey) = Some e ->
        (gestureHoldTime l <= f_now f - start)%Z
        /\ ev_id e = orUndefined (Some id)
        /\ Some (ev_type e) = type).
Proof.
  intros [Hlast Hident] [Hshort|Hsame].
  - rewrite (step_dropped sqrt l f handKey Hshort).
    split; [split; assumption|].
    intros e He. exfalso. unfold step in He.
    apply processHandGestures_emitted in He as [Hlen _]. contradiction.
  - destruct (complete_dec f) as [Hlen|Hshort].
    2:{ rewrite (step_dropped sqrt l f handKey Hshort).
        split; [split; assumption|].
        intros e He. exfalso. unfold step in He.
        apply processHandGestures_emitted in He as [Hlen _]. contradiction. }
    destruct (step_complete sqrt l f handKey Hlen) as [Hstate Hemit].
    rewrite Hstate, Hemit. clear Hstate Hemit.
    unfold identityFrom, classified, processState in *.
    destruct (detectGesture _ _ _) as [d|]; simpl in *.
    + assert (Htype : type = Some (d_type d)) by congruence.
      destruct (Hident ltac:(rewrite Htype; eauto)) as [Hstart Hid].
      assert (Hkeep : let s := updateIdentity (f_now f) (f_rnd f) d
                 (updateMotion (smoothingFactor l)
                    (palmCenter (r_landmarks (f_result f)))
                    (storedState l handKey)) in
               lastGesture s = type /\ gestureStartTime s = start
               /\ gestureId s = Some id).
      { unfold updateIdentity. destruct (decide _) as [Heq|Hne]; simpl in *.
        - repeat split; assumption.
        - exfalso. apply Hne. symmetry. exact Hsame. }
      simpl in Hkeep. destruct Hkeep as (Hk1 & Hk2 & Hk3).
      destruct (gate _ _ _) eqn:Hgate; simpl.
      * split; [split; auto|].
        intros e He. injection He as <-. simpl.
        apply gate_true_iff in Hgate as [_ Hhold].
        rewrite Hk2 in Hhold. rewrite Hk3. auto.
      * split; [split; auto|]. intros e He. discriminate.
    + split; [|intros e He; discriminate].
      split; [congruence|]. intros Hsome. rewrite <- Hsame in Hlast.
      rewrite <- Hlast in Hsome. destruct Hsome; discriminate.
Qed.

Lemma runHand_keeps_identity (sqrt : Q -> Q) (frames : list Frame) (l : t)
    (handKey : string) (type : option GestureType) (start : Z) (id : string) :
  identityFrom type start id (storedState l handKey) ->
  steady sqrt l frames handKey ->
  identityFrom type start id
    (storedState (runHand sqrt l frames handKey) handKey).
Proof.
  revert l. induction frames as [|f rest IH]; intros l Hident Hsteady; simpl.
  - exact Hident.
  - destruct Hsteady as [Hkeep Hrest].
    apply IH; [|exact Hrest].
    apply (step_keeps_identity sqrt l f handKey type start id Hident Hkeep).
Qed.

(** C9. An observation with fewer than 21 landmarks emits nothing, calls no
    subscriber and leaves the whole layer, hence the state stored under
    every hand key, as it was: no entry appears for an unseen key and an
    existing entry keeps its fields. *)
Theorem C9_short_landmark_list_ignored (sqrt : Q -> Q) (l : t) (now : Z)
    (rnd : string) (result : HandTrackingResult) (handKey : string) :
  (length (r_landmarks result) < 21)%nat ->
  let o := processHandGestures sqrt l now rnd result handKey in
  emitted o = None
  /\ invoked o = []
  /\ completion o = Normal
  /\ layer o = l
  /\ gestureStates (layer o) !! handKey = gestureStates l !! handKey.
Proof.
  intros Hlen. unfold processHandGestures.
  destruct (Nat.ltb_spec (length (r_landmarks result)) 21) as [_|Hge]; [|lia].
  simpl. repeat split; reflexivity.
Qed.

(** Twenty landmarks for a hand never seen before: no event and still no
    entry under its key. *)
Lemma C9_short_landmark_list_witness :
  let o := processHandGestures sqrt6 (new None) 1000 "a"
             (observation (take 20 pinchHand) 1000) "Right" in
  emitted o = None
  /\ invoked o = []
  /\ completion o = Normal
  /\ layer o = new None
  /\ gestureStates (layer o) !! "Right" = gestureStates (new None) !! "Right".
Proof.
  apply (C9_short_landmark_list_ignored sqrt6 (new None) 1000 "a"
           (observation (take 20 pinchHand) 1000) "Right").
  vm_compute. lia.
Defined.

(** C4 as stated fails with a configured threshold of 0: the resting hand
    classifies as no gesture, its confidence is reset to 0, which reaches
    the threshold, far more than the hold time has passed since the stored
    start time, and yet nothing is emitted. *)
Lemma C4_counterexample_zero_threshold :
  let l := new (Some (mkConfig (Some 0%Q) None None)) in
  let o := processHandGestures sqrt6 l 1000 "a"
             (observation restingHand 1000) "Right" in
  ~ (is_Some (emitted o)
     <-> exists state,
           gestureStates (layer o) !! "Right" = Some state
           /\ (confidenceThreshold l <= confidence state)%Q
           /\ (gestureHoldTime l <= 1000 - gestureStartTime state)%Z).
Proof.
  intros l o [_ Hemit].
  assert (Hsome : is_Some (emitted o)).
  { apply Hemit. eexists. split; [vm_compute; reflexivity|].
    split; [unfold Qle; simpl; lia | simpl; lia]. }
  destruct Hsome as [e He]. vm_compute in He. discriminate.
Qed.

(** C4 (amended). Part one, for every layer and every frame that passes
    the landmark guard: an event is emitted if and only if a gesture was
    classified on that frame, the hand's running confidence reaches the
    configured threshold and the time since [gestureStartTime] reaches the
    configured hold time; when the classified type is a gesture and differs
    from the hand's previous one, a new identity starts on this frame (the
    start time is the time of this frame and the id the one drawn for it),
    and when it is the previous one, start time and id are kept.  Part
    two, for every run of a hand: after the frame [start] on which the
    type changed, over frames that keep that type, whatever a later frame
    [f] emits has waited at least the hold time since [start] and carries
    the id drawn at [start]; with a positive hold time [start] itself
    emits nothing.  So no event is emitted before the hold time has
    elapsed since the current identity's start, even when the confidence
    threshold is already exceeded, and none when nothing is classified. *)
Theorem C4_emission_gate (sqrt : Q -> Q) :
  (forall (l : t) (now : Z) (rnd : string) (result : HandTrackingResult)
          (handKey : string),
      (21 <= length (r_landmarks result))%nat ->
      let state0 := storedState l handKey in
      let o := processHandGestures sqrt l now rnd result handKey in
      exists state,
        gestureStates (layer o) !! handKey = Some state
        /\ lastGesture state = classified sqrt l result state0
        /\ (is_Some (emitted o)
            <-> is_Some (lastGesture state)
                /\ (confidenceThreshold l <= confidence state)%Q
                /\ (gestureHoldTime l <= now - gestureStartTime state)%Z)
        /\ (is_Some (lastGesture state) ->
            lastGesture state <> lastGesture state0 ->
            gestureStartTime state = now /\ gestureId state = Some rnd)
        /\ (is_Some (lastGesture state) ->
            lastGesture state = lastGesture state0 ->
            gestureStartTime state = gestureStartTime state0
            /\ gestureId state = gestureId state0))
  /\ (forall (l : t) (handKey : string) (start : Frame) (held : list Frame)
             (f : Frame),
        complete start ->
        classified sqrt l (f_result start) (storedState l handKey)
        <> lastGesture (storedState l handKey) ->
        steady sqrt (layer (step sqrt l start handKey)) (held ++ [f]) handKey ->
        let l1 := runHand sqrt l (start :: held) handKey in
        ((0 < gestureHoldTime l)%Z -> emitted (step sqrt l start handKey) = None)
        /\ (forall e, emitted (step sqrt l1 f handKey) = Some e ->
              (gestureHoldTime l <= f_now f - f_now start)%Z
              /\ ev_id e = orUndefined (Some (f_rnd start)))).
Proof.
  split.
  - intros l now rnd result handKey Hlen state0 o.
    destruct (processHandGestures_processed sqrt l now rnd result handKey Hlen)
      as (Hstate & Hemitted & _).
    fold o in Hstate, Hemitted. fold (storedState l handKey) in Hstate, Hemitted.
    fold state0 in Hstate, Hemitted.
    eexists. split; [exact Hstate|].
    split; [apply processState_lastGesture|].
    rewrite Hemitted.
    split; [apply (processState_emits_iff sqrt l now rnd result state0)|].
    unfold processState.
    destruct (detectGesture _ _ _) as [d|]; simpl.
    + assert (Hid : let s := updateIdentity now rnd d
                 (updateMotion (smoothingFactor l)
                    (palmCenter (r_landmarks result)) state0) in
               (lastGesture s <> lastGesture state0 ->
                gestureStartTime s = now /\ gestureId s = Some rnd)
               /\ (lastGesture s = lastGesture state0 ->
                   gestureStartTime s = gestureStartTime state0
                   /\ gestureId s = gestureId state0)).
      { unfold updateIdentity. destruct (decide _) as [Heq|Hne]; simpl in *.
        - split; [intros H; contradiction|auto].
        - split; [auto|]. intros H. exfalso. apply Hne. symmetry. exact H. }
      simpl in Hid. destruct (gate _ _ _); simpl; tauto.
    + split; intros [g Hg]; discriminate.
  - intros l handKey start held f Hlen Hchange Hsteady l1.
    destruct (step_starts_identity sqrt l start handKey Hlen Hchange)
      as [Hident Hquiet].
    split; [exact Hquiet|].
    apply steady_app in Hsteady as [Hheld [Hf _]].
    pose proof (runHand_keeps_identity sqrt held _ handKey _ _ _ Hident Hheld)
      as Hident1.
    change (runHand sqrt (layer (step sqrt l start handKey)) held handKey)
      with l1 in Hident1, Hf.
    destruct (step_keeps_identity sqrt l1 f handKey _ _ _ Hident1 Hf)
      as [_ Hev].
    intros e He. destruct (Hev e He) as (Hhold & Hid & _).
    destruct (runHand_config sqrt (start :: held) l handKey) as [_ Hcfg].
    fold l1 in Hcfg. rewrite Hcfg in Hhold. split; assumption.
Qed.

(** A pinch that starts at 1000 ms under the default configuration emits
    nothing on its first frame nor 80 ms later; the event of the frame at
    1200 ms has waited 200 ms and carries the id drawn at 1000 ms. *)
Lemma C4_emission_gate_witness :
  let start := frameAt 1000 "a" pinchHand in
  let held := [frameAt 1080 "b" pinchHand] in
  let f := frameAt 1200 "c" pinchHand in
  let l1 := runHand sqrt6 (new None) (start :: held) "Right" in
  complete start
  /\ emitted (step sqrt6 (new None) start "Right") = None
  /\ is_Some (emitted (step sqrt6 l1 f "Right"))
  /\ (forall e, emitted (step sqrt6 l1 f "Right") = Some e ->
        (gestureHoldTime (new None) <= f_now f - f_now start)%Z
        /\ ev_id e = orUndefined (Some (f_rnd start))).
Proof.
  intros start held f l1.
  assert (Hlen : complete start) by (vm_compute; lia).
  assert (Hchange : classified sqrt6 (new None) (f_result start)
                      (storedState (new None) "Right")
                    <> lastGesture (storedState (new None) "Right"))
    by (vm_compute; discriminate).
  assert (Hsteady : steady sqrt6 (layer (step sqrt6 (new None) start "Right"))
                      (held ++ [f]) "Right").
  { unfold held. cbn [steady app]. repeat split; right; vm_compute; reflexivity. }
  destruct (proj2 (C4_emission_gate sqrt6) (new None) "Right" start held f
              Hlen Hchange Hsteady) as [Hquiet Hev].
  split; [exact Hlen|]. split; [apply Hquiet; simpl; lia|].
  split; [vm_compute; eauto|]. exact Hev.
Defined.

(** ** Motion *)

Lemma processState_motion (sqrt : Q -> Q) (l : t) (now : Z) (rnd : string)
    (result : HandTrackingResult) (state : GestureState) :
  let state' := (processState sqrt l now rnd result state).1 in
  let moved := updateMotion (smoothingFactor l)
                 (palmCenter (r_landmarks result)) state in
  position state' = position moved
  /\ velocity state' = velocity moved
  /\ previousPosition state' = previousPosition moved.
Proof.
  unfold processState.
  destruct (detectGesture _ _ _) as [d|]; simpl.
  - destruct (gate _ _ _); simpl; unfold updateIdentity;
      destruct (decide _); simpl; auto.
  - auto.
Qed.

(** C3 (the code against the claim). The velocity stored for a frame is the
    palm center minus [previousPosition] as the previous frame left it,
    and the previous frame stored there the position it started from.  For
    two successive frames of a hand the second velocity is therefore the
    palm center minus the smoothed position from before the first of the
    two frames, not the one the first frame produced. *)
Theorem C3_velocity_uses_position_before_previous_frame
    (sqrt : Q -> Q) (l : t) (state0 : GestureState)
    (now1 now2 : Z) (rnd1 rnd2 : string) (result1 result2 : HandTrackingResult) :
  let state1 := (processState sqrt l now1 rnd1 result1 state0).1 in
  let state2 := (processState sqrt l now2 rnd2 result2 state1).1 in
  let center2 := palmCenter (r_landmarks result2) in
  velocity state2
  = {| pt_x := pt_x center2 - pt_x (position state0);
       pt_y := pt_y center2 - pt_y (position state0) |}.
Proof.
  intros state1 state2 center2.
  destruct (processState_motion sqrt l now2 rnd2 result2 state1)
    as (_ & Hvel & _).
  destruct (processState_motion sqrt l now1 rnd1 result1 state0)
    as (_ & _ & Hprev).
  fold state1 in Hprev. fold state2 in Hvel.
  rewrite Hvel. simpl. rewrite Hprev. reflexivity.
Qed.

(** A hand held still at palm center (0.5, 0.7), seen twice from a new
    key. The first frame leaves the smoothed position at (0.2, 0.28); the
    velocity of the second frame is (0.5, 0.7), the distance to the
    origin, where the claim has (0.3, 0.42). *)
Example C3_failing_input :
  let state1 := (processState sqrt6 (new None) 1000 "a"
                   (observation pinchHand 1000) freshState).1 in
  let state2 := (processState sqrt6 (new None) 1033 "b"
                   (observation pinchHand 1033) state1).1 in
  (pt_x (position state1) == 0.2)%Q
  /\ (pt_x (palmCenter pinchHand) == 0.5)%Q
  /\ (pt_x (velocity state2) == 0.5)%Q
  /\ ~ (pt_x (velocity state2)
        == pt_x (palmCenter pinchHand) - pt_x (position state1))%Q.
Proof.
  vm_compute. repeat split; try reflexivity. intros H. discriminate.
Qed.

(** ** Identity *)

Lemma coherent_freshState : coherent freshState.
Proof. unfold coherent. simpl. tauto. Qed.

Lemma processState_coherent (sqrt : Q -> Q) (l : t) (now : Z) (rnd : string)
    (result : HandTrackingResult) (state : GestureState) :
  coherent state ->
  coherent (processState sqrt l now rnd result state).1.
Proof.
  unfold coherent, processState. intros Hco.
  assert (Hid : forall d,
    let s := updateIdentity now rnd d
               (updateMotion (smoothingFactor l)
                  (palmCenter (r_landmarks result)) state) in
    lastGesture s = None <-> gestureId s = None).
  { intros d. unfold updateIdentity.
    destruct (decide _) as [Heq|Hne]; simpl in *.
    - rewrite Heq in *. tauto.
    - split; discriminate. }
  destruct (detectGesture _ _ _) as [d|]; simpl.
  - destruct (gate _ _ _); simpl; apply Hid.
  - tauto.
Qed.

Lemma reachable_coherent (sqrt : Q -> Q) (l : t) :
  reachable sqrt l ->
  forall handKey state,
    gestureStates l !! handKey = Some state -> coherent state.
Proof.
  induction 1 as [config|config l _ IH|callback l _ IH|index l _ IH|l _ _
                 |l now rnd result handKey' _ IH];
    intros handKey state Hlook; simpl in Hlook; eauto.
  - rewrite lookup_empty in Hlook. discriminate.
  - rewrite lookup_empty in Hlook. discriminate.
  - unfold processHandGestures in Hlook.
    destruct (length (r_landmarks result) <? 21)%nat; simpl in Hlook; eauto.
    destruct (processState _ _ _ _ _ _) as [state' event] eqn:Hstep.
    assert (Hco : coherent state').
    { change state' with (state', event).1. rewrite <- Hstep.
      apply processState_coherent.
      destruct (gestureStates l !! handKey') as [s|] eqn:Hs; simpl.
      - eapply IH; eassumption.
      - apply coherent_freshState. }
    assert (Hstates : <[handKey' := state']> (gestureStates l) !! handKey
                      = Some state).
    { destruct event as [e|]; simpl in Hlook.
      - destruct (emitGestureEvent _ _); exact Hlook.
      - exact Hlook. }
    destruct (decide (handKey' = handKey)) as [->|Hne].
    + rewrite lookup_insert_eq in Hstates. congruence.
    + rewrite lookup_insert_ne in Hstates by assumption. eauto.
Qed.

Lemma processState_identity (sqrt : Q -> Q) (l : t) (now : Z) (rnd : string)
    (result : HandTrackingResult) (state : GestureState) :
  coherent state ->
  let state' := (processState sqrt l now rnd result state).1 in
  let type := classified sqrt l result state in
  (gestureId state' <> gestureId state -> type <> lastGesture state)
  /\ (type <> lastGesture state ->
      gestureId state'
      = match type with Some _ => Some rnd | None => None end)
  /\ (type <> lastGesture state -> gestureId state <> Some rnd ->
      gestureId state' <> gestureId state).
Proof.
  unfold coherent, classified, processState. intros Hco.
  destruct (detectGesture _ _ _) as [d|]; simpl.
  - assert (Hid : let s := updateIdentity now rnd d
               (updateMotion (smoothingFactor l)
                  (palmCenter (r_landmarks result)) state) in
             (gestureId s <> gestureId state ->
              Some (d_type d) <> lastGesture state)
             /\ (Some (d_type d) <> lastGesture state ->
                 gestureId s = Some rnd)
             /\ (Some (d_type d) <> lastGesture state ->
                 gestureId state <> Some rnd ->
                 gestureId s <> gestureId state)).
    { unfold updateIdentity. destruct (decide _) as [Heq|Hne]; simpl in *.
      - repeat split; intros Hdiff; exfalso; apply Hdiff; congruence.
      - repeat split; intros; congruence. }
    destruct (gate _ _ _); simpl; exact Hid.
  - destruct (lastGesture state) as [g|], (gestureId state) as [i|];
      repeat split; intros; try congruence.
    + destruct Hco as [_ Hco]. specialize (Hco eq_refl). discriminate.
    + destruct Hco as [Hco _]. specialize (Hco eq_refl). discriminate.
Qed.

Lemma processState_event_id (sqrt : Q -> Q) (l : t) (now : Z) (rnd : string)
    (result : HandTrackingResult) (state : GestureState) (e : GestureEvent) :
  (processState sqrt l now rnd result state).2 = Some e ->
  ev_id e = orUndefined (gestureId (processState sqrt l now rnd result state).1).
Proof.
  unfold processState.
  destruct (detectGesture _ _ _) as [d|]; simpl.
  - destruct (gate _ _ _); simpl; intros He; [|discriminate].
    injection He as <-. reflexivity.
  - discriminate.
Qed.

(** C7 as stated fails when the random source repeats itself. A hand
    shows a pinch and the id a is drawn; on the next frame it shows a
    closed fist and the same id a is drawn again: the classified type
    changed and the stored id did not. *)
Lemma C7_counterexample_repeated_random_id :
  let o1 := processHandGestures sqrt6 (new None) 1000 "a"
              (observation pinchHand 1000) "Right" in
  let o2 := processHandGestures sqrt6 (layer o1) 1033 "a"
              (observation fistHand 1033) "Right" in
  exists state1 state2,
    gestureStates (layer o1) !! "Right" = Some state1
    /\ gestureStates (layer o2) !! "Right" = Some state2
    /\ lastGesture state1 = Some pinch
    /\ lastGesture state2 = Some closed_fist
    /\ ~ (gestureId state2 <> gestureId state1
          <-> lastGesture state2 <> lastGesture state1).
Proof.
  eexists. eexists.
  split; [vm_compute; reflexivity|].
  split; [vm_compute; reflexivity|].
  split; [reflexivity|]. split; [reflexivity|].
  simpl. intros [_ Hchange]. apply Hchange; [discriminate|reflexivity].
Qed.

(** C7 (amended). Two frames of the same hand key processed one after the
    other, each with 21 landmarks or more, on a layer produced by the
    public interface.  The stored [gestureId] changes only if the
    classified type (a gesture or none) changes.  When the type changes,
    the stored id becomes the id drawn for the second frame, or none when
    no gesture is classified; it therefore differs from the previous id
    whenever the drawn id is not the previous one, which the random source
    does not guarantee.  When the type stays the same, the events of the
    two frames carry the same id. *)
Theorem C7_identity_changes_iff_type_changes
    (sqrt : Q -> Q) (l : t) (handKey : string)
    (now1 now2 : Z) (rnd1 rnd2 : string) (result1 result2 : HandTrackingResult) :
  reachable sqrt l ->
  (21 <= length (r_landmarks result1))%nat ->
  (21 <= length (r_landmarks result2))%nat ->
  let state0 := default freshState (gestureStates l !! handKey) in
  let o1 := processHandGestures sqrt l now1 rnd1 result1 handKey in
  let o2 := processHandGestures sqrt (layer o1) now2 rnd2 result2 handKey in
  exists state1 state2,
    gestureStates (layer o1) !! handKey = Some state1
    /\ gestureStates (layer o2) !! handKey = Some state2
    /\ lastGesture state1 = classified sqrt l result1 state0
    /\ lastGesture state2 = classified sqrt (layer o1) result2 state1
    /\ (gestureId state2 <> gestureId state1 ->
        lastGesture state2 <> lastGesture state1)
    /\ (lastGesture state2 <> lastGesture state1 ->
        gestureId state2
        = match lastGesture state2 with Some _ => Some rnd2 | None => None end)
    /\ (lastGesture state2 <> lastGesture state1 ->
        gestureId state1 <> Some rnd2 ->
        gestureId state2 <> gestureId state1)
    /\ (lastGesture state2 = lastGesture state1 ->
        forall e1 e2, emitted o1 = Some e1 -> emitted o2 = Some e2 ->
                      ev_id e2 = ev_id e1).
Proof.
  intros Hreach Hlen1 Hlen2 state0 o1 o2.
  destruct (processHandGestures_processed sqrt l now1 rnd1 result1 handKey Hlen1)
    as (Hs1 & He1 & _).
  destruct (processHandGestures_processed sqrt (layer o1) now2 rnd2 result2
              handKey Hlen2) as (Hs2 & He2 & _).
  fold state0 in Hs1, He1. fold o1 in Hs1, He1. fold o2 in Hs2, He2.
  rewrite Hs1 in Hs2, He2. simpl in Hs2, He2.
  set (state1 := (processState sqrt l now1 rnd1 result1 state0).1) in *.
  set (state2 := (processState sqrt (layer o1) now2 rnd2 result2 state1).1) in *.
  assert (Hlast1 : lastGesture state1 = classified sqrt l result1 state0)
    by apply processState_lastGesture.
  assert (Hlast2 : lastGesture state2
                   = classified sqrt (layer o1) result2 state1)
    by apply processState_lastGesture.
  assert (Hco0 : coherent state0).
  { unfold state0. destruct (gestureStates l !! handKey) as [s|] eqn:Hs; simpl.
    - eapply reachable_coherent; eassumption.
    - apply coherent_freshState. }
  assert (Hco1 : coherent state1) by (apply processState_coherent; exact Hco0).
  pose proof (processState_identity sqrt (layer o1) now2 rnd2 result2 state1
                Hco1) as Hident.
  simpl in Hident. fold state2 in Hident. rewrite <- Hlast2 in Hident.
  destruct Hident as (Honly & Hnew & Hfresh).
  exists state1, state2. split; [exact Hs1|]. split; [exact Hs2|].
  split; [exact Hlast1|]. split; [exact Hlast2|].
  split; [exact Honly|]. split; [exact Hnew|]. split; [exact Hfresh|].
  intros Hsame e1 e2 Hev1 Hev2.
  rewrite He1 in Hev1. rewrite He2 in Hev2.
  apply processState_event_id in Hev1. apply processState_event_id in Hev2.
  fold state1 in Hev1. fold state2 in Hev2.
  rewrite Hev1, Hev2. f_equal.
  destruct (decide (gestureId state2 = gestureId state1)) as [Heq|Hne];
    [exact Heq|].
  apply Honly in Hne. contradiction.
Qed.

(** A new layer sees a pinch under the drawn id a and then a closed fist
    under the drawn id b: the type changes and the stored id becomes b. *)
Lemma C7_identity_witness :
  let l := new None in
  let state0 := default freshState (gestureStates l !! "Right") in
  let o1 := processHandGestures sqrt6 l 1000 "a"
              (observation pinchHand 1000) "Right" in
  let o2 := processHandGestures sqrt6 (layer o1) 1033 "b"
              (observation fistHand 1033) "Right" in
  exists state1 state2,
    gestureStates (layer o1) !! "Right" = Some state1
    /\ gestureStates (layer o2) !! "Right" = Some state2
    /\ lastGesture state1
       = classified sqrt6 l (observation pinchHand 1000) state0
    /\ lastGesture state2
       = classified sqrt6 (layer o1) (observation fistHand 1033) state1
    /\ (gestureId state2 <> gestureId state1 ->
        lastGesture state2 <> lastGesture state1)
    /\ (lastGesture state2 <> lastGesture state1 ->
        gestureId state2
        = match lastGesture state2 with Some _ => Some "b" | None => None end)
    /\ (lastGesture state2 <> lastGesture state1 ->
        gestureId state1 <> Some "b" ->
        gestureId state2 <> gestureId state1)
    /\ (lastGesture state2 = lastGesture state1 ->
        forall e1 e2, emitted o1 = Some e1 -> emitted o2 = Some e2 ->
                      ev_id e2 = ev_id e1).
Proof.
  intros l.
  apply (C7_identity_changes_iff_type_changes sqrt6 l "Right" 1000 1033
           "a" "b" (observation pinchHand 1000) (observation fistHand 1033)).
  - constructor.
  - vm_compute. lia.
  - vm_compute. lia.
Defined.

(** ** Pinch detection *)

Lemma extendedFingers_thumb_index (landmarks : list HandLandmark) :
  (extension landmarks 0 + extension landmarks 1 <= extendedFingers landmarks)%Z.
Proof.
  unfold extendedFingers, extension, fingerExtensions. simpl.
  repeat match goal with
         | |- context [if ?b then _ else _] => destruct b
         end; simpl; lia.
Qed.

Lemma detectGesture_pinching (sqrt : Q -> Q) (tipDistance : Q)
    (landmarks : list HandLandmark) (state : GestureState) :
  (tipDistance < 0.05)%Q ->
  pinching sqrt tipDistance landmarks ->
  exists d, detectGesture sqrt landmarks state = Some d
            /\ d_type d = pinch /\ d_confidence d = 0.9%Q.
Proof.
  intros Hsmall (Hlt & Hthumb & Hindex & Hdist).
  pose proof (extendedFingers_thumb_index landmarks) as Hsum.
  rewrite Hthumb, Hindex in Hsum.
  unfold detectGesture.
  destruct (Z.leb_spec 4 (extendedFingers landmarks)) as [Hge|_]; [lia|].
  destruct (Z.eqb_spec (extendedFingers landmarks) 0) as [Hz|_]; [lia|].
  destruct (Z.eqb_spec (extendedFingers landmarks) 1) as [Hone|_]; [lia|].
  simpl. rewrite Hthumb, Hindex. simpl.
  assert (Hclose : Qltb (distance sqrt (landmark landmarks 4)
                           (landmark landmarks 8)) 0.05 = true).
  { apply Qltb_true_iff. rewrite Hdist. exact Hsmall. }
  rewrite Hclose. simpl. eexists. split; [reflexivity|]. split; reflexivity.
Qed.

Lemma processState_pinch_starts (sqrt : Q -> Q) (l : t) (tipDistance : Q)
    (f : Frame) (state : GestureState) :
  (tipDistance < 0.05)%Q ->
  lastGesture state <> Some pinch ->
  pinching sqrt tipDistance (r_landmarks (f_result f)) ->
  pinchHeld (f_now f) (f_rnd f)
    (processState sqrt l (f_now f) (f_rnd f) (f_result f) state).1.
Proof.
  intros Hsmall Hnew Hpinch. unfold processState.
  destruct (detectGesture_pinching sqrt tipDistance (r_landmarks (f_result f))
              (updateMotion (smoothingFactor l)
                 (palmCenter (r_landmarks (f_result f))) state) Hsmall Hpinch)
    as (d & -> & Htype & Hconf).
  assert (Hheld : pinchHeld (f_now f) (f_rnd f)
            (updateIdentity (f_now f) (f_rnd f) d
               (updateMotion (smoothingFactor l)
                  (palmCenter (r_landmarks (f_result f))) state))).
  { unfold updateIdentity, pinchHeld. rewrite Htype.
    destruct (decide _) as [Heq|_]; simpl in *; [contradiction|].
    rewrite Hconf. repeat split; try reflexivity. apply Qle_refl. }
  destruct (gate _ _ _); simpl; exact Hheld.
Qed.

Lemma processState_pinch_continues (sqrt : Q -> Q) (l : t) (tipDistance : Q)
    (start : Z) (id : string) (f : Frame) (state : GestureState) :
  (tipDistance < 0.05)%Q ->
  pinchHeld start id state ->
  pinching sqrt tipDistance (r_landmarks (f_result f)) ->
  let out := processState sqrt l (f_now f) (f_rnd f) (f_result f) state in
  pinchHeld start id out.1
  /\ ((confidenceThreshold l <= 0.9)%Q ->
      (gestureHoldTime l <= f_now f - start)%Z ->
      exists e, out.2 = Some e
                /\ ev_type e = pinch
                /\ ev_id e = orUndefined (Some id)
                /\ (0.9 <= ev_confidence e)%Q).
Proof.
  intros Hsmall (Hlast & Hstart & Hid & Hconf) Hpinch. unfold processState.
  destruct (detectGesture_pinching sqrt tipDistance (r_landmarks (f_result f))
              (updateMotion (smoothingFactor l)
                 (palmCenter (r_landmarks (f_result f))) state) Hsmall Hpinch)
    as (d & -> & Htype & Hdconf).
  set (state2 := updateIdentity (f_now f) (f_rnd f) d
                   (updateMotion (smoothingFactor l)
                      (palmCenter (r_landmarks (f_result f))) state)).
  assert (Hheld : pinchHeld start id state2).
  { unfold state2, updateIdentity, pinchHeld. rewrite Htype.
    destruct (decide _) as [_|Hne]; simpl in *; [|congruence].
    repeat split; try assumption.
    rewrite Hdconf. lra. }
  destruct (gate l (f_now f) state2) eqn:Hgate; simpl.
  - split; [exact Hheld|]. intros _ _.
    eexists. split; [reflexivity|]. simpl.
    destruct Hheld as (_ & _ & Hid2 & Hconf2).
    rewrite Hid2. repeat split; assumption.
  - split; [exact Hheld|]. intros Hthr Hhold. exfalso.
    destruct Hheld as (_ & Hstart2 & _ & Hconf2).
    assert (Htrue : gate l (f_now f) state2 = true).
    { apply gate_true_iff. rewrite Hstart2. split; [|assumption].
      eapply Qle_trans; eassumption. }
    congruence.
Qed.

Lemma runHand_pinch_held (sqrt : Q -> Q) (tipDistance : Q)
    (start : Z) (id : string) (frames : list Frame) (l : t) (handKey : string) :
  (tipDistance < 0.05)%Q ->
  Forall (pinchFrame sqrt tipDistance) frames ->
  pinchHeld start id (storedState l handKey) ->
  pinchHeld start id (storedState (runHand sqrt l frames handKey) handKey).
Proof.
  intros Hsmall Hall. revert l.
  induction Hall as [|f rest [Hlen Hpinch] _ IH]; intros l Hheld; simpl.
  - exact Hheld.
  - apply IH.
    destruct (step_complete sqrt l f handKey Hlen) as [Hstate _].
    rewrite Hstate.
    apply (processState_pinch_continues sqrt l tipDistance start id f _
             Hsmall Hheld Hpinch).
Qed.

(** ** The mapper *)

Lemma fold_onAction_fields
    (subscribers : list (Callback (string * GestureEvent))) (m : GestureMapper.t) :
  let m' := fold_right GestureMapper.onAction m subscribers in
  GestureMapper.mappings m' = GestureMapper.mappings m
  /\ GestureMapper.policies m' = GestureMapper.policies m
  /\ GestureMapper.defaultConfidenceThreshold m'
     = GestureMapper.defaultConfidenceThreshold m
  /\ GestureMapper.lastActionTimes m' = GestureMapper.lastActionTimes m.
Proof.
  induction subscribers as [|s rest IH]; simpl.
  - repeat split; reflexivity.
  - exact IH.
Qed.

(** The three default policies in one formula: the rate limiter stores the
    time as soon as its own test passes, whatever the confidence policy
    said; the context policy passes for every mapped type. *)
Lemma processGesture_default_policies (m : GestureMapper.t) (now : Z)
    (event : GestureEvent) (mapping : GestureMapping) :
  GestureMapper.policies m = GestureMapper.defaultPolicies ->
  GestureMapper.mappings m !! ev_type event = Some mapping ->
  let lastTime := orZ (GestureMapper.lastActionTimes m !! ev_type event) 0 in
  let o := GestureMapper.processGesture m now event in
  if (200 <=? now - lastTime)%Z
  then GestureMapper.mapper o
       = GestureMapper.withLastActionTimes m
           (<[ev_type event := now]> (GestureMapper.lastActionTimes m))
       /\ GestureMapper.dispatched o
          = if GestureMapper.confidencePolicy m event
            then Some (gm_action mapping, event) else None
  else GestureMapper.mapper o = m /\ GestureMapper.dispatched o = None.
Proof.
  intros Hpol Hmap. simpl.
  unfold GestureMapper.processGesture. rewrite Hmap, Hpol. simpl.
  unfold GestureMapper.rateLimitPolicy.
  destruct (200 <=? now - orZ (GestureMapper.lastActionTimes m !! ev_type event) 0)%Z.
  - simpl. unfold GestureMapper.contextPolicy. simpl. rewrite Hmap.
    assert (Hctx : (if GestureMapper.truthy (gm_global mapping) then true
                    else if GestureMapper.truthy (gm_requireFocus mapping)
                         then true else true) = true)
      by (repeat destruct (GestureMapper.truthy _); reflexivity).
    rewrite Hctx.
    destruct (GestureMapper.confidencePolicy m event); simpl.
    + destruct (GestureMapper.emitAction _ _ _) as [called c]. simpl. auto.
    + auto.
  - simpl. rewrite andb_false_r. simpl. auto.
Qed.

Lemma new_mapper_pinch :
  GestureMapper.mappings (GestureMapper.new None) !! pinch
  = Some (mkMapping pinch "drag" (Some true) None (Some 80%Z) None None).
Proof. vm_compute. reflexivity. Qed.

Lemma new_mapper_policies (threshold : option Q) :
  GestureMapper.policies (GestureMapper.new threshold)
  = GestureMapper.defaultPolicies.
Proof. reflexivity. Qed.

(** ** Scenario B: pinch to drag *)

(** C2 as stated fails: a pinch with tips 0.03 apart seen at 1000 ms and
    still there 80 ms later emits no event under the default
    configuration, so nothing reaches the mapper. *)
Lemma C2_counterexample_80ms :
  let o1 := processHandGestures sqrt6 (new None) 1000 "a"
              (observation pinchHand 1000) "Right" in
  let o2 := processHandGestures sqrt6 (layer o1) 1080 "b"
              (observation pinchHand 1080) "Right" in
  pinching sqrt6 0.03 pinchHand
  /\ emitted o1 = None
  /\ emitted o2 = None.
Proof.
  split.
  - unfold pinching. vm_compute. repeat split; reflexivity.
  - vm_compute. split; reflexivity.
Qed.

(** C2 (amended). A hand key whose current gesture is not a pinch shows a
    pinch (21 landmarks or more, thumb and index extended, fewer than four
    fingers extended, tips 0.03 apart) and keeps showing it on the
    following frames. At a frame that comes at least [gestureHoldTime]
    (150 ms by default) after the first one, with a classifier threshold of
    at most 0.9 (0.8 by default), [processHandGestures] emits a [pinch]
    event under the identity of the first frame, and a newly constructed
    mapper with any subscribers dispatches the action [drag] for it.  The
    [holdMillis] of the pinch mapping plays no part. *)
Theorem C2_pinch_dispatches_drag_once_held
    (sqrt : Q -> Q) (l : t) (handKey : string)
    (first : Frame) (middle : list Frame) (last : Frame)
    (subscribers : list (Callback (string * GestureEvent))) (nowMapper : Z) :
  (confidenceThreshold l <= 0.9)%Q ->
  lastGesture (storedState l handKey) <> Some pinch ->
  pinchFrame sqrt 0.03 first ->
  Forall (pinchFrame sqrt 0.03) middle ->
  pinchFrame sqrt 0.03 last ->
  (gestureHoldTime l <= f_now last - f_now first)%Z ->
  (200 <= nowMapper)%Z ->
  let l1 := runHand sqrt l (first :: middle) handKey in
  let o := processHandGestures sqrt l1 (f_now last) (f_rnd last)
             (f_result last) handKey in
  let m := fold_right GestureMapper.onAction (GestureMapper.new None) subscribers in
  exists e,
    emitted o = Some e
    /\ ev_type e = pinch
    /\ ev_id e = orUndefined (Some (f_rnd first))
    /\ GestureMapper.dispatched (GestureMapper.processGesture m nowMapper e)
       = Some ("drag", e).
Proof.
  intros Hthr Hnew [Hlen1 Hfirst] Hmiddle [Hlen Hlast] Hhold Hnow l1 o m.
  assert (Hsmall : (0.03 < 0.05)%Q) by reflexivity.
  assert (Hheld : pinchHeld (f_now first) (f_rnd first) (storedState l1 handKey)).
  { unfold l1. simpl.
    apply (runHand_pinch_held sqrt 0.03); [exact Hsmall|exact Hmiddle|].
    destruct (step_complete sqrt l first handKey Hlen1) as [Hstate _].
    rewrite Hstate.
    apply (processState_pinch_starts sqrt l 0.03); assumption. }
  destruct (runHand_config sqrt (first :: middle) l handKey) as [Hthr1 Hhold1].
  fold l1 in Hthr1, Hhold1.
  destruct (processState_pinch_continues sqrt l1 0.03 (f_now first) (f_rnd first)
              last _ Hsmall Hheld Hlast) as [_ Hemit].
  rewrite Hthr1, Hhold1 in Hemit.
  destruct (Hemit Hthr Hhold) as (e & He & Htype & Hid & Hconf).
  destruct (step_complete sqrt l1 last handKey Hlen) as [_ Hemitted].
  exists e. split; [unfold step in Hemitted; unfold o; congruence|].
  split; [exact Htype|]. split; [exact Hid|].
  destruct (fold_onAction_fields subscribers (GestureMapper.new None))
    as (Hmap & Hpol & Hdef & Htimes).
  fold m in Hmap, Hpol, Hdef, Htimes.
  assert (Hlookup : GestureMapper.mappings m !! ev_type e
            = Some (mkMapping pinch "drag" (Some true) None (Some 80%Z) None None))
    by (rewrite Hmap, Htype; exact new_mapper_pinch).
  pose proof (processGesture_default_policies m nowMapper e _
                (eq_trans Hpol (new_mapper_policies None)) Hlookup) as Hstep.
  assert (Hlast0 : GestureMapper.lastActionTimes m !! ev_type e = None)
    by (rewrite Htimes; apply lookup_empty).
  simpl in Hstep. rewrite Hlast0 in Hstep. simpl in Hstep.
  destruct (Z.leb_spec 200 (nowMapper - 0)) as [_|Hlt]; [|lia].
  destruct Hstep as [_ Hdisp]. rewrite Hdisp.
  assert (Hpass : GestureMapper.confidencePolicy m e = true).
  { unfold GestureMapper.confidencePolicy. rewrite Hlookup, Hdef. simpl.
    apply Qgeb_true_iff. eapply Qle_trans; [|exact Hconf].
    unfold Qle. simpl. lia. }
  rewrite Hpass. reflexivity.
Qed.

(** The pinch of the counterexample, seen again 150 ms after it started:
    the event is emitted and [drag] is dispatched to two subscribers. *)
Lemma C2_pinch_dispatches_drag_witness :
  let l1 := runHand sqrt6 (new None)
              [frameAt 1000 "a" pinchHand; frameAt 1080 "b" pinchHand]
              "Right" in
  let o := processHandGestures sqrt6 l1 1150 "c" (observation pinchHand 1150)
             "Right" in
  let m := fold_right GestureMapper.onAction (GestureMapper.new None)
             [quiet; quiet] in
  exists e,
    emitted o = Some e
    /\ ev_type e = pinch
    /\ ev_id e = orUndefined (Some "a")
    /\ GestureMapper.dispatched (GestureMapper.processGesture m 1150 e)
       = Some ("drag", e).
Proof.
  assert (Hpinch : forall now rnd,
             pinchFrame sqrt6 0.03 (frameAt now rnd pinchHand)).
  { intros now rnd. split; [vm_compute; lia|].
    unfold pinching. vm_compute. repeat split; reflexivity. }
  apply (C2_pinch_dispatches_drag_once_held sqrt6 (new None) "Right"
           (frameAt 1000 "a" pinchHand) [frameAt 1080 "b" pinchHand]
           (frameAt 1150 "c" pinchHand) [quiet; quiet] 1150).
  - vm_compute. intros H; discriminate.
  - vm_compute. discriminate.
  - apply Hpinch.
  - repeat constructor; apply Hpinch.
  - apply Hpinch.
  - simpl. lia.
  - lia.
Defined.

(** ** Policies *)

Lemma orZ_Some_0 (v : Z) : orZ (Some v) 0 = v.
Proof. unfold orZ. destruct (Z.eqb_spec v 0); congruence. Qed.

(** C10. On a mapper with the default policy table, an event of a mapped
    type that fails the confidence policy while its own 200 ms gap test
    passes is not dispatched, yet the rate limiter stores its time; an
    event of the same type that arrives less than 200 ms later and passes
    the confidence policy is then refused by the rate limiter and not
    dispatched, although the mapper would have dispatched it had the first
    event not been processed. *)
Theorem C10_rejected_event_advances_rate_limit
    (m : GestureMapper.t) (mapping : GestureMapping)
    (e1 e2 : GestureEvent) (t1 t2 : Z) :
  GestureMapper.policies m = GestureMapper.defaultPolicies ->
  GestureMapper.mappings m !! ev_type e1 = Some mapping ->
  ev_type e2 = ev_type e1 ->
  GestureMapper.confidencePolicy m e1 = false ->
  GestureMapper.confidencePolicy m e2 = true ->
  (200 <= t1 - orZ (GestureMapper.lastActionTimes m !! ev_type e1) 0)%Z ->
  (t1 <= t2 < t1 + 200)%Z ->
  let o1 := GestureMapper.processGesture m t1 e1 in
  let o2 := GestureMapper.processGesture (GestureMapper.mapper o1) t2 e2 in
  GestureMapper.dispatched o1 = None
  /\ GestureMapper.lastActionTimes (GestureMapper.mapper o1) !! ev_type e1
     = Some t1
  /\ GestureMapper.confidencePolicy (GestureMapper.mapper o1) e2 = true
  /\ (GestureMapper.rateLimitPolicy (GestureMapper.mapper o1) t2 e2).2 = false
  /\ GestureMapper.dispatched o2 = None
  /\ GestureMapper.dispatched (GestureMapper.processGesture m t2 e2)
     = Some (gm_action mapping, e2).
Proof.
  intros Hpol Hmap Htype Hlow Hhigh Hgap Hsoon o1 o2.
  pose proof (processGesture_default_policies m t1 e1 mapping Hpol Hmap) as H1.
  simpl in H1.
  destruct (Z.leb_spec 200
              (t1 - orZ (GestureMapper.lastActionTimes m !! ev_type e1) 0))
    as [_|Hlt]; [|lia].
  destruct H1 as [Hm1 Hd1]. fold o1 in Hm1, Hd1.
  rewrite Hlow in Hd1.
  assert (Htimes1 : GestureMapper.lastActionTimes (GestureMapper.mapper o1)
                      !! ev_type e1 = Some t1)
    by (rewrite Hm1; simpl; apply lookup_insert_eq).
  assert (Hconf2 : GestureMapper.confidencePolicy (GestureMapper.mapper o1) e2
                   = true)
    by (rewrite Hm1; exact Hhigh).
  assert (Hmap2 : GestureMapper.mappings (GestureMapper.mapper o1) !! ev_type e2
                  = Some mapping)
    by (rewrite Hm1, Htype; exact Hmap).
  assert (Hpol2 : GestureMapper.policies (GestureMapper.mapper o1)
                  = GestureMapper.defaultPolicies)
    by (rewrite Hm1; exact Hpol).
  pose proof (processGesture_default_policies (GestureMapper.mapper o1) t2 e2
                mapping Hpol2 Hmap2) as H2.
  simpl in H2. rewrite Htype, Htimes1, orZ_Some_0 in H2.
  destruct (Z.leb_spec 200 (t2 - t1)) as [Hge|_]; [lia|].
  destruct H2 as [_ Hd2]. fold o2 in Hd2.
  split; [exact Hd1|]. split; [exact Htimes1|]. split; [exact Hconf2|].
  split.
  { unfold GestureMapper.rateLimitPolicy.
    rewrite Htype, Htimes1, orZ_Some_0.
    destruct (Z.leb_spec 200 (t2 - t1)) as [Hge|_]; [lia|]. reflexivity. }
  split; [exact Hd2|].
  assert (Hmap0 : GestureMapper.mappings m !! ev_type e2 = Some mapping)
    by (rewrite Htype; exact Hmap).
  pose proof (processGesture_default_policies m t2 e2 mapping Hpol Hmap0) as H0.
  simpl in H0. rewrite Htype in H0.
  destruct (Z.leb_spec 200
              (t2 - orZ (GestureMapper.lastActionTimes m !! ev_type e1) 0))
    as [_|Hlt]; [|lia].
  destruct H0 as [_ Hd0]. rewrite Hd0, Hhigh. reflexivity.
Qed.

(** A new mapper; a pinch of confidence 0.5 at 1000 ms, then a pinch of
    confidence 0.9 at 1100 ms: neither is dispatched. *)
Lemma C10_rejected_event_witness :
  let m := GestureMapper.new None in
  let e1 := sampleEvent "a" pinch 0.5 0.5 0.5 in
  let e2 := sampleEvent "a" pinch 0.9 0.5 0.5 in
  let o1 := GestureMapper.processGesture m 1000 e1 in
  let o2 := GestureMapper.processGesture (GestureMapper.mapper o1) 1100 e2 in
  GestureMapper.dispatched o1 = None
  /\ GestureMapper.lastActionTimes (GestureMapper.mapper o1) !! pinch
     = Some 1000%Z
  /\ GestureMapper.confidencePolicy (GestureMapper.mapper o1) e2 = true
  /\ (GestureMapper.rateLimitPolicy (GestureMapper.mapper o1) 1100 e2).2 = false
  /\ GestureMapper.dispatched o2 = None
  /\ GestureMapper.dispatched (GestureMapper.processGesture m 1100 e2)
     = Some ("drag", e2).
Proof.
  apply (C10_rejected_event_advances_rate_limit (GestureMapper.new None)
           (mkMapping pinch "drag" (Some true) None (Some 80%Z) None None)
           (sampleEvent "a" pinch 0.5 0.5 0.5)
           (sampleEvent "a" pinch 0.9 0.5 0.5) 1000 1100).
  - reflexivity.
  - vm_compute. reflexivity.
  - reflexivity.
  - vm_compute. reflexivity.
  - vm_compute. reflexivity.
  - vm_compute. discriminate.
  - lia.
Defined.

Lemma confidencePolicy_true_iff (m : GestureMapper.t) (event : GestureEvent) :
  GestureMapper.confidencePolicy m event = true
  <-> (orQ (GestureMapper.mappings m !! ev_type event ≫= gm_confidenceThreshold)
           (GestureMapper.defaultConfidenceThreshold m)
       <= ev_confidence event)%Q.
Proof. unfold GestureMapper.confidencePolicy. apply Qgeb_true_iff. Qed.

(** C8 (the code against the claim). The pinch mapping is replaced by one
    with [confidenceThreshold: 0] on a mapper whose default threshold is
    0.8. The threshold 0 is stored, but the confidence policy reads it with
    [||], takes 0.8 instead, and refuses a pinch of confidence 0.5, which
    is not dispatched. *)
Theorem C8_zero_threshold_replaced_by_default :
  let m := GestureMapper.addMapping pinch
             (mkMapping pinch "drag" (Some true) None None (Some 0%Q) None)
             (GestureMapper.new None) in
  let event := sampleEvent "a" pinch 0.5 0.5 0.5 in
  GestureMapper.mappings m !! pinch ≫= gm_confidenceThreshold = Some 0%Q
  /\ (0 <= ev_confidence event)%Q
  /\ GestureMapper.confidencePolicy m event = false
  /\ GestureMapper.dispatched (GestureMapper.processGesture m 1000 event) = None.
Proof.
  vm_compute. repeat split; try reflexivity. intros H. discriminate.
Qed.

(** ** Drag sessions *)






(** C6 as stated fails when no window is focused. A session is open on
    window w1 under sequence id a; the window loses the focus and nothing
    else takes it; a drag event with id b arrives. The session is not
    replaced: it is still active on w1 under id a. *)
Lemma C6_counterexample_no_focused_window :
  let opened := WindowManager.handleDragGesture sampleView WindowManager.new
                  sampleStore (sampleEvent "a" pinch 0.9 0.1 0.125) in
  let event := sampleEvent "b" pinch 0.9 0.5 0.5 in
  let r := WindowManager.handleDragGesture sampleView opened.1 unfocusedStore
             event in
  WindowManager.isDragging (WindowManager.dragState opened.1) = true
  /\ WindowManager.gestureSequenceId (WindowManager.dragState opened.1)
     <> ev_id event
  /\ WindowManager.isDragging (WindowManager.dragState r.1) = true
  /\ WindowManager.gestureSequenceId (WindowManager.dragState r.1) = Some "a"
  /\ WindowManager.gestureSequenceId (WindowManager.dragState r.1)
     <> ev_id event.
Proof.
  vm_compute. repeat split; try reflexivity; intros H; discriminate.
Qed.

(** C6 (amended). A drag event whose id differs from the active session's
    id, arriving while a window is focused and present in the store, puts
    a new session in place of the old one, with no other effect on the
    store: the single session record is then active on the focused window
    under the incoming event's id, with the anchor offset computed from the
    cursor and the current position of that window. *)
Theorem C6_new_sequence_supersedes_session
    (view : WindowManager.Viewport) (wm : WindowManager.t)
    (store : WindowManager.Store) (event : GestureEvent)
    (id : string) (w : WindowManager.WebOSWindow) :
  WindowManager.isDragging (WindowManager.dragState wm) = true ->
  WindowManager.gestureSequenceId (WindowManager.dragState wm) <> ev_id event ->
  WindowManager.present (WindowManager.focusedWindowId store) = Some id ->
  WindowManager.getWindow store id = Some w ->
  let r := WindowManager.handleDragGesture view wm store event in
  let screen := WindowManager.screenPosition view event in
  r.2 = store
  /\ WindowManager.dragState r.1
     = {| WindowManager.isDragging := true;
          WindowManager.windowId := Some id;
          WindowManager.startPosition := screen;
          WindowManager.offset :=
            {| pt_x := pt_x screen - pt_x (WindowManager.w_position w);
               pt_y := pt_y screen - pt_y (WindowManager.w_position w) |};
          WindowManager.gestureSequenceId := ev_id event |}.
Proof.
  intros Hdrag Hseq Hfocus Hwin. unfold WindowManager.handleDragGesture.
  rewrite (bool_decide_eq_false_2 _ Hseq), andb_false_r.
  destruct (WindowManager.present (WindowManager.windowId _));
    rewrite Hfocus, Hwin; simpl; split; reflexivity.
Qed.

(** The session of the counterexample with the window still focused: the
    event with id b opens a new session on w1. *)
Lemma C6_new_sequence_witness :
  let opened := WindowManager.handleDragGesture sampleView WindowManager.new
                  sampleStore (sampleEvent "a" pinch 0.9 0.1 0.125) in
  let event := sampleEvent "b" pinch 0.9 0.5 0.5 in
  let r := WindowManager.handleDragGesture sampleView opened.1 sampleStore
             event in
  let screen := WindowManager.screenPosition sampleView event in
  r.2 = sampleStore
  /\ WindowManager.dragState r.1
     = {| WindowManager.isDragging := true;
          WindowManager.windowId := Some "w1";
          WindowManager.startPosition := screen;
          WindowManager.offset :=
            {| pt_x := pt_x screen - 100; pt_y := pt_y screen - 100 |};
          WindowManager.gestureSequenceId := Some "b" |}.
Proof.
  apply (C6_new_sequence_supersedes_session sampleView
           (WindowManager.handleDragGesture sampleView WindowManager.new
              sampleStore (sampleEvent "a" pinch 0.9 0.1 0.125)).1
           sampleStore (sampleEvent "b" pinch 0.9 0.5 0.5) "w1"
           (WindowManager.mkWindow "w1" "Files" (mkPoint 100 100) 1000
              false false true)).
  - reflexivity.
  - vm_compute. intros H. discriminate.
  - reflexivity.
  - reflexivity.
Defined.

(** * Further properties of the classifier *)

Lemma extendedFingers_range (landmarks : list HandLandmark) :
  (0 <= extendedFingers landmarks <= 5)%Z.
Proof.
  unfold extendedFingers, fingerExtensions. simpl.
  repeat match goal with
         | |- context [if ?b then _ else _] => destruct b
         end; simpl; lia.
Qed.

Lemma detectGesture_facts (sqrt : Q -> Q)
    (landmarks : list HandLandmark) (state : GestureState) (d : Detection) :
  detectGesture sqrt landmarks state = Some d ->
  d_confidence d = typeConfidence (d_type d)
  /\ d_type d <> thumbs_down
  /\ d_type d <> pinch_rotate
  /\ d_type d <> gesture_combo
  /\ (is_Some (d_data d) <-> d_type d = pinch).
Proof.
  unfold detectGesture. intros H.
  repeat match type of H with
         | (if ?b then _ else _) = _ => destruct b
         end;
    try discriminate; injection H as <-; simpl;
    (split; [reflexivity|]); (split; [discriminate|]);
    (split; [discriminate|]); (split; [discriminate|]);
    split; intros Hd; try discriminate; try (destruct Hd; discriminate);
    eauto.
Qed.

(** X1. Whatever the hand and the state, a detection is one of the nine
    types of the cascade with the confidence fixed for that type (0.9,
    0.85 or 0.8); [thumbs_down], [pinch_rotate] and [gesture_combo] are
    never reported, and only a pinch carries data. *)
Theorem X1_detection_types_and_confidences (sqrt : Q -> Q)
    (landmarks : list HandLandmark) (state : GestureState) (d : Detection) :
  detectGesture sqrt landmarks state = Some d ->
  d_confidence d = typeConfidence (d_type d)
  /\ d_type d <> thumbs_down
  /\ d_type d <> pinch_rotate
  /\ d_type d <> gesture_combo
  /\ (is_Some (d_data d) <-> d_type d = pinch).
Proof. apply detectGesture_facts. Qed.

Lemma X1_detection_witness :
  let d := mkDetection pinch 0.9 (Some (30000 # 1000000)%Q) in
  d_confidence d = typeConfidence (d_type d)
  /\ d_type d <> thumbs_down
  /\ d_type d <> pinch_rotate
  /\ d_type d <> gesture_combo
  /\ (is_Some (d_data d) <-> d_type d = pinch).
Proof.
  apply (X1_detection_types_and_confidences sqrt6 pinchHand
           (updateMotion 0.6 (palmCenter pinchHand) freshState)).
  vm_compute. reflexivity.
Defined.

(** X2. The first three rules of the cascade decide by the finger count
    alone: the hand is an open palm exactly when four or five fingers are
    extended, a closed fist exactly when none is, and a thumbs-up exactly
    when the thumb alone is; pinch distance, depth and velocity cannot
    override them. *)
Theorem X2_finger_count_rules_win (sqrt : Q -> Q)
    (landmarks : list HandLandmark) (state : GestureState) :
  let type := d_type <$> detectGesture sqrt landmarks state in
  (type = Some open_palm <-> (4 <= extendedFingers landmarks)%Z)
  /\ (type = Some closed_fist <-> extendedFingers landmarks = 0%Z)
  /\ (type = Some thumbs_up
      <-> extendedFingers landmarks = 1%Z /\ extension landmarks 0 = 1%Z).
Proof.
  unfold detectGesture.
  destruct (Z.leb_spec 4 (extendedFingers landmarks)) as [H4|H4]; simpl.
  { repeat split; intros; try discriminate; try lia; reflexivity. }
  destruct (Z.eqb_spec (extendedFingers landmarks) 0) as [H0|H0]; simpl.
  { repeat split; intros; try discriminate; try lia; reflexivity. }
  destruct (Z.eqb_spec (extendedFingers landmarks) 1) as [H1|H1];
    destruct (Z.eqb_spec (extension landmarks 0) 1) as [Ht|Ht]; simpl.
  { repeat split; intros; try discriminate; try lia; try assumption;
      reflexivity. }
  all: repeat match goal with
           | |- context [if ?b then _ else _] => destruct b
           end; simpl;
    repeat split; intros; try discriminate; try lia; tauto.
Qed.

(** X3. With a positive hold time, the frame on which the classified type
    of a hand changes never emits: a new gesture restarts the hold timer at
    the time of that very frame, and losing the gesture emits nothing. The
    first frame ever seen for a hand key is such a frame whenever it shows
    a gesture. *)
Theorem X3_no_event_on_type_change (sqrt : Q -> Q) (l : t) (now : Z)
    (rnd : string) (result : HandTrackingResult) (handKey : string) :
  (0 < gestureHoldTime l)%Z ->
  let state0 := default freshState (gestureStates l !! handKey) in
  classified sqrt l result state0 <> lastGesture state0 ->
  emitted (processHandGestures sqrt l now rnd result handKey) = None.
Proof.
  intros Hhold state0 Hchange.
  destruct (emitted _) as [e|] eqn:He; [|reflexivity]. exfalso.
  apply processHandGestures_emitted in He as [_ He]. fold state0 in He.
  unfold classified in Hchange. unfold processState in He.
  destruct (detectGesture _ _ _) as [d|]; simpl in *; [|discriminate].
  unfold updateIdentity in He.
  destruct (decide _) as [Heq|Hne]; simpl in *.
  - apply Hchange. symmetry. exact Heq.
  - unfold gate in He. simpl in He.
    replace (now - now)%Z with 0%Z in He by lia.
    destruct (Z.leb_spec (gestureHoldTime l) 0) as [Hle|_]; [lia|].
    rewrite andb_false_r in He. discriminate.
Qed.

Lemma X3_no_event_on_type_change_witness :
  emitted (processHandGestures sqrt6 (new None) 1000 "a"
             (observation pinchHand 1000) "Right") = None.
Proof.
  apply (X3_no_event_on_type_change sqrt6 (new None) 1000 "a"
           (observation pinchHand 1000) "Right").
  - simpl. lia.
  - vm_compute. discriminate.
Defined.

(** X4. Processing an observation under one hand key leaves the
    subscribers, the configuration and the state stored under every other
    key as they were; an entry can only appear under the processed key. *)
Theorem X4_other_hands_untouched (sqrt : Q -> Q) (l : t) (now : Z)
    (rnd : string) (result : HandTrackingResult) (handKey other : string) :
  other <> handKey ->
  let l' := layer (processHandGestures sqrt l now rnd result handKey) in
  gestureStates l' !! other = gestureStates l !! other
  /\ callbacks l' = callbacks l
  /\ smoothingFactor l' = smoothingFactor l
  /\ confidenceThreshold l' = confidenceThreshold l
  /\ gestureHoldTime l' = gestureHoldTime l.
Proof.
  intros Hne. unfold processHandGestures.
  destruct (length (r_landmarks result) <? 21)%nat; simpl.
  - repeat split; reflexivity.
  - destruct (processState _ _ _ _ _ _) as [state' event].
    assert (Hlook : <[handKey := state']> (gestureStates l) !! other
                    = gestureStates l !! other)
      by (apply lookup_insert_ne; congruence).
    destruct event as [e|]; simpl.
    + destruct (emitGestureEvent _ _). simpl. repeat split; auto.
    + repeat split; auto.
Qed.

Lemma X4_other_hands_untouched_witness :
  let l := layer (processHandGestures sqrt6 (new None) 1000 "a"
                    (observation pinchHand 1000) "Left") in
  let l' := layer (processHandGestures sqrt6 l 1033 "b"
                     (observation restingHand 1033) "Right") in
  gestureStates l' !! "Left" = gestureStates l !! "Left"
  /\ callbacks l' = callbacks l
  /\ smoothingFactor l' = smoothingFactor l
  /\ confidenceThreshold l' = confidenceThreshold l
  /\ gestureHoldTime l' = gestureHoldTime l.
Proof.
  intros l.
  apply (X4_other_hands_untouched sqrt6 l 1033 "b"
           (observation restingHand 1033) "Right" "Left").
  discriminate.
Defined.

(** X5. A batch of observations yields at most one event per observation,
    in the order of the batch; each event carries the handedness and the
    timestamp of an observation of the batch that has 21 landmarks or
    more; and the batch leaves subscribers and configuration alone. *)
Theorem X5_batch_events_come_from_observations (sqrt : Q -> Q) (l : t)
    (results : list Frame) :
  let r := processHandTracking sqrt l results in
  (length r.1.2 <= length results)%nat
  /\ Forall (fun e =>
               exists f, In f results
                         /\ (21 <= length (r_landmarks (f_result f)))%nat
                         /\ ev_handedness e = r_handedness (f_result f)
                         /\ ev_timestamp e = r_timestamp (f_result f))
            r.1.2
  /\ callbacks r.1.1 = callbacks l
  /\ confidenceThreshold r.1.1 = confidenceThreshold l
  /\ gestureHoldTime r.1.1 = gestureHoldTime l.
Proof.
  revert l. induction results as [|f rest IH]; intros l; simpl.
  - repeat split; auto.
  - set (o := processHandGestures sqrt l (f_now f) (f_rnd f) (f_result f)
                (handednessLabel (r_handedness (f_result f)))).
    destruct (processHandGestures_config sqrt l (f_now f) (f_rnd f) (f_result f)
                (handednessLabel (r_handedness (f_result f))))
      as (Hcb & _ & Hthr & Hhold).
    fold o in Hcb, Hthr, Hhold.
    assert (Hsrc : Forall (fun e =>
               exists f', In f' (f :: rest)
                         /\ (21 <= length (r_landmarks (f_result f')))%nat
                         /\ ev_handedness e = r_handedness (f_result f')
                         /\ ev_timestamp e = r_timestamp (f_result f'))
              (option_list (emitted o))).
    { destruct (emitted o) as [e|] eqn:He; simpl; [|constructor].
      constructor; [|constructor].
      apply processHandGestures_emitted in He as [Hlen He].
      destruct (processState_event sqrt l _ _ _ _ e He)
        as (_ & _ & _ & Hh & Ht & _).
      exists f. split; [left; reflexivity|]. auto. }
    assert (Hone : (length (option_list (emitted o)) <= 1)%nat)
      by (destruct (emitted o); simpl; lia).
    destruct (completion o); simpl.
    + specialize (IH (layer o)).
      destruct (processHandTracking sqrt (layer o) rest) as [[l' events] c].
      simpl in *. destruct IH as (Hlen & Hall & Hcb' & Hthr' & Hhold').
      split; [rewrite length_app; lia|].
      split.
      * apply Forall_app. split; [exact Hsrc|].
        eapply Forall_impl; [exact Hall|].
        intros e (f' & Hin & Hrest). exists f'. split; [right; exact Hin|exact Hrest].
      * repeat split; congruence.
    + split; [lia|]. split; [exact Hsrc|]. repeat split; assumption.
Qed.

(** * Further properties of the mapper *)

Lemma evalPolicy_frame (m : GestureMapper.t) (now : Z)
    (p : GestureMapper.Policy) (event : GestureEvent) :
  let m' := (GestureMapper.evalPolicy m now p event).1 in
  GestureMapper.mappings m' = GestureMapper.mappings m
  /\ GestureMapper.callbacks m' = GestureMapper.callbacks m
  /\ GestureMapper.policies m' = GestureMapper.policies m
  /\ GestureMapper.defaultConfidenceThreshold m'
     = GestureMapper.defaultConfidenceThreshold m
  /\ (forall g, g <> ev_type event ->
        GestureMapper.lastActionTimes m' !! g
        = GestureMapper.lastActionTimes m !! g).
Proof.
  destruct p; simpl; try (repeat split; reflexivity).
  unfold GestureMapper.rateLimitPolicy.
  destruct (200 <=? _)%Z; simpl; repeat split; try reflexivity.
  intros g Hne. apply lookup_insert_ne. congruence.
Qed.

Lemma evalPolicies_frame (ps : list (string * GestureMapper.Policy))
    (m : GestureMapper.t) (now : Z) (event : GestureEvent) :
  let m' := (GestureMapper.evalPolicies m now ps event).1 in
  GestureMapper.mappings m' = GestureMapper.mappings m
  /\ GestureMapper.callbacks m' = GestureMapper.callbacks m
  /\ GestureMapper.policies m' = GestureMapper.policies m
  /\ GestureMapper.defaultConfidenceThreshold m'
     = GestureMapper.defaultConfidenceThreshold m
  /\ (forall g, g <> ev_type event ->
        GestureMapper.lastActionTimes m' !! g
        = GestureMapper.lastActionTimes m !! g).
Proof.
  revert m. induction ps as [|[name p] rest IH]; intros m; simpl.
  - repeat split; reflexivity.
  - pose proof (evalPolicy_frame m now p event) as Hp.
    destruct (GestureMapper.evalPolicy m now p event) as [m1 r]. simpl in Hp.
    specialize (IH m1).
    destruct (GestureMapper.evalPolicies m1 now rest event) as [m2 rs].
    simpl in *.
    destruct Hp as (H1 & H2 & H3 & H4 & H5).
    destruct IH as (I1 & I2 & I3 & I4 & I5).
    repeat split; try congruence.
    intros g Hne. rewrite I5, H5 by assumption. reflexivity.
Qed.

Lemma processGesture_mapper (m : GestureMapper.t) (now : Z)
    (event : GestureEvent) :
  GestureMapper.mapper (GestureMapper.processGesture m now event) = m
  \/ GestureMapper.mapper (GestureMapper.processGesture m now event)
     = (GestureMapper.evalPolicies m now (GestureMapper.policies m) event).1.
Proof.
  unfold GestureMapper.processGesture.
  destruct (GestureMapper.mappings m !! ev_type event); [|left; reflexivity].
  destruct (GestureMapper.evalPolicies _ _ _ _) as [m' rs]. simpl.
  destruct (negb _); simpl; [right; reflexivity|].
  destruct (GestureMapper.emitAction _ _ _). right; reflexivity.
Qed.

(** X6. Processing an event changes nothing in the mapper but the time
    the rate limiter holds for the type of that event: the mapping table,
    the policy table, the subscribers, the default threshold and the times
    recorded for every other gesture type stay as they were, whatever
    policies are registered. *)
Theorem X6_processGesture_touches_only_own_rate_slot
    (m : GestureMapper.t) (now : Z) (event : GestureEvent) :
  let m' := GestureMapper.mapper (GestureMapper.processGesture m now event) in
  GestureMapper.mappings m' = GestureMapper.mappings m
  /\ GestureMapper.callbacks m' = GestureMapper.callbacks m
  /\ GestureMapper.policies m' = GestureMapper.policies m
  /\ GestureMapper.defaultConfidenceThreshold m'
     = GestureMapper.defaultConfidenceThreshold m
  /\ (forall g, g <> ev_type event ->
        GestureMapper.lastActionTimes m' !! g
        = GestureMapper.lastActionTimes m !! g).
Proof.
  destruct (processGesture_mapper m now event) as [-> | ->].
  - repeat split; reflexivity.
  - apply evalPolicies_frame.
Qed.

Lemma evalPolicies_rejecting (ps : list (string * GestureMapper.Policy))
    (m : GestureMapper.t) (now : Z) (event : GestureEvent)
    (name : string) (policy : GestureEvent -> bool) :
  In (name, GestureMapper.CustomPolicy policy) ps ->
  policy event = false ->
  forallb (fun result => result)
          (GestureMapper.evalPolicies m now ps event).2 = false.
Proof.
  revert m. induction ps as [|[n p] rest IH]; intros m Hin Hrej; simpl.
  - destruct Hin.
  - destruct (GestureMapper.evalPolicy m now p event) as [m1 r] eqn:Hp.
    destruct (GestureMapper.evalPolicies m1 now rest event) as [m2 rs] eqn:Hrest.
    simpl. destruct Hin as [Heq|Hin].
    + injection Heq as -> ->. simpl in Hp. injection Hp as <- <-.
      rewrite Hrej. reflexivity.
    + specialize (IH m1 Hin Hrej). rewrite Hrest in IH. simpl in IH.
      rewrite IH. apply andb_false_r.
Qed.

(** X7. The policies are a conjunction: a registered policy that rejects
    the event keeps it from every subscriber, wherever it stands in the
    table and whatever the other policies answer. *)
Theorem X7_rejecting_policy_blocks_dispatch
    (m : GestureMapper.t) (now : Z) (event : GestureEvent)
    (name : string) (policy : GestureEvent -> bool) :
  In (name, GestureMapper.CustomPolicy policy) (GestureMapper.policies m) ->
  policy event = false ->
  let o := GestureMapper.processGesture m now event in
  GestureMapper.dispatched o = None
  /\ GestureMapper.invoked o = []
  /\ GestureMapper.completion o = Normal.
Proof.
  intros Hin Hrej. unfold GestureMapper.processGesture.
  destruct (GestureMapper.mappings m !! ev_type event); [|auto].
  pose proof (evalPolicies_rejecting (GestureMapper.policies m) m now event
                name policy Hin Hrej) as Hall.
  destruct (GestureMapper.evalPolicies _ _ _ _) as [m' rs]. simpl in *.
  rewrite Hall. simpl. auto.
Qed.

Lemma X7_rejecting_policy_witness :
  let m := GestureMapper.onAction quiet
             (GestureMapper.addPolicy "leftOnly"
                (fun e => match ev_handedness e with Left => true | Right => false end)
                (GestureMapper.new None)) in
  let o := GestureMapper.processGesture m 1000
             (sampleEvent "a" open_palm 0.9 0.5 0.5) in
  GestureMapper.dispatched o = None
  /\ GestureMapper.invoked o = []
  /\ GestureMapper.completion o = Normal.
Proof.
  apply (X7_rejecting_policy_blocks_dispatch _ 1000
           (sampleEvent "a" open_palm 0.9 0.5 0.5) "leftOnly"
           (fun e => match ev_handedness e with Left => true | Right => false end)).
  - simpl. auto.
  - reflexivity.
Defined.

(** X8. The 200 ms window of the default rate limiter. On a mapper with
    the default policies, an event whose type was last accepted at [t1] and
    which passes the confidence policy is dispatched exactly when at least
    200 ms have passed since [t1]; the stored time moves to the event's
    time when it is accepted and stays at [t1] when it is refused, so
    refused events do not extend the window. *)
Theorem X8_rate_limit_window
    (m : GestureMapper.t) (mapping : GestureMapping) (event : GestureEvent)
    (t1 t2 : Z) :
  GestureMapper.policies m = GestureMapper.defaultPolicies ->
  GestureMapper.mappings m !! ev_type event = Some mapping ->
  GestureMapper.lastActionTimes m !! ev_type event = Some t1 ->
  GestureMapper.confidencePolicy m event = true ->
  let o := GestureMapper.processGesture m t2 event in
  (GestureMapper.dispatched o
   = if (200 <=? t2 - t1)%Z then Some (gm_action mapping, event) else None)
  /\ GestureMapper.lastActionTimes (GestureMapper.mapper o) !! ev_type event
     = Some (if (200 <=? t2 - t1)%Z then t2 else t1).
Proof.
  intros Hpol Hmap Htime Hconf o.
  pose proof (processGesture_default_policies m t2 event mapping Hpol Hmap) as H.
  simpl in H. fold o in H. rewrite Htime, orZ_Some_0 in H.
  destruct (200 <=? t2 - t1)%Z.
  - destruct H as [Hm Hd]. rewrite Hd, Hconf, Hm. simpl.
    split; [reflexivity|apply lookup_insert_eq].
  - destruct H as [Hm Hd]. rewrite Hd, Hm. split; [reflexivity|exact Htime].
Qed.

Lemma X8_rate_limit_window_witness :
  let m := GestureMapper.mapper
             (GestureMapper.processGesture (GestureMapper.new None) 1000
                (sampleEvent "a" pinch 0.9 0.5 0.5)) in
  let event := sampleEvent "a" pinch 0.9 0.6 0.5 in
  let o := GestureMapper.processGesture m 1150 event in
  (GestureMapper.dispatched o
   = if (200 <=? 1150 - 1000)%Z then Some ("drag", event) else None)
  /\ GestureMapper.lastActionTimes (GestureMapper.mapper o) !! pinch
     = Some (if (200 <=? 1150 - 1000)%Z then 1150 else 1000)%Z.
Proof.
  apply (X8_rate_limit_window _
           (mkMapping pinch "drag" (Some true) None (Some 80%Z) None None)
           (sampleEvent "a" pinch 0.9 0.6 0.5) 1000 1150).
  - reflexivity.
  - vm_compute. reflexivity.
  - vm_compute. reflexivity.
  - vm_compute. reflexivity.
Defined.

(** X9. A gesture without a mapping is dropped before any policy runs:
    after [removeMapping] of its type, or after [destroy], an event
    reaches no subscriber and leaves the whole mapper, the rate limiter's
    times included, as it was. *)
Theorem X9_unmapped_gesture_dropped
    (m : GestureMapper.t) (now : Z) (event : GestureEvent) :
  let removed := GestureMapper.removeMapping (ev_type event) m in
  let destroyed := GestureMapper.destroy m in
  GestureMapper.processGesture removed now event
  = GestureMapper.mkOutcome removed None [] Normal
  /\ GestureMapper.processGesture destroyed now event
     = GestureMapper.mkOutcome destroyed None [] Normal.
Proof.
  unfold GestureMapper.processGesture. simpl.
  rewrite lookup_delete_eq, lookup_empty. split; reflexivity.
Qed.

(** X10. A mapping added at run time takes effect on the next event: on a
    mapper with the default policies, an event of the added type whose
    confidence reaches the mapping's threshold (the default one when the
    mapping has none, or has 0) and whose rate-limit gap has passed is
    dispatched under the action of the added mapping. *)
Theorem X10_added_mapping_is_used
    (m : GestureMapper.t) (mapping : GestureMapping) (event : GestureEvent)
    (now : Z) :
  GestureMapper.policies m = GestureMapper.defaultPolicies ->
  (200 <= now - orZ (GestureMapper.lastActionTimes m !! ev_type event) 0)%Z ->
  (orQ (gm_confidenceThreshold mapping)
       (GestureMapper.defaultConfidenceThreshold m)
   <= ev_confidence event)%Q ->
  let m' := GestureMapper.addMapping (ev_type event) mapping m in
  GestureMapper.mappings m' !! ev_type event
  = Some (mkMapping (ev_type event) (gm_action mapping)
            (gm_requireFocus mapping) (gm_global mapping)
            (gm_holdMillis mapping) (gm_confidenceThreshold mapping)
            (gm_continuous mapping))
  /\ GestureMapper.dispatched (GestureMapper.processGesture m' now event)
     = Some (gm_action mapping, event).
Proof.
  intros Hpol Hgap Hconf m'.
  assert (Hlook : GestureMapper.mappings m' !! ev_type event
            = Some (mkMapping (ev_type event) (gm_action mapping)
                      (gm_requireFocus mapping) (gm_global mapping)
                      (gm_holdMillis mapping) (gm_confidenceThreshold mapping)
                      (gm_continuous mapping)))
    by (unfold m'; simpl; apply lookup_insert_eq).
  split; [exact Hlook|].
  pose proof (processGesture_default_policies m' now event _ Hpol Hlook) as H.
  simpl in H.
  destruct (Z.leb_spec 200
              (now - orZ (GestureMapper.lastActionTimes m !! ev_type event) 0))
    as [_|Hlt]; [|lia].
  destruct H as [_ Hd]. rewrite Hd.
  assert (Hpass : GestureMapper.confidencePolicy m' event = true).
  { unfold GestureMapper.confidencePolicy. rewrite Hlook. simpl.
    apply Qgeb_true_iff. exact Hconf. }
  rewrite Hpass. reflexivity.
Qed.

Lemma X10_added_mapping_witness :
  let mapping := mkMapping thumbs_up "confirm" None (Some true) None
                   (Some 0.85%Q) None in
  let event := sampleEvent "a" thumbs_up 0.85 0.5 0.5 in
  let m' := GestureMapper.addMapping thumbs_up mapping (GestureMapper.new None) in
  GestureMapper.mappings m' !! thumbs_up
  = Some (mkMapping thumbs_up "confirm" None (Some true) None (Some 0.85%Q) None)
  /\ GestureMapper.dispatched (GestureMapper.processGesture m' 1000 event)
     = Some ("confirm", event).
Proof.
  apply (X10_added_mapping_is_used (GestureMapper.new None)
           (mkMapping thumbs_up "confirm" None (Some true) None
              (Some 0.85%Q) None)
           (sampleEvent "a" thumbs_up 0.85 0.5 0.5) 1000).
  - reflexivity.
  - vm_compute. discriminate.
  - vm_compute. discriminate.
Defined.

(** X11. When no subscriber throws, a dispatched action reaches every
    registered subscriber exactly once, in registration order, and the
    call completes normally; when nothing is dispatched no subscriber is
    called. *)
Theorem X11_dispatch_reaches_all_subscribers
    (m : GestureMapper.t) (now : Z) (event : GestureEvent) :
  let o := GestureMapper.processGesture m now event in
  (forall action e,
      GestureMapper.dispatched o = Some (action, e) ->
      Forall (fun callback => callback (action, e) = Normal)
             (GestureMapper.callbacks m) ->
      GestureMapper.invoked o = seq 0 (length (GestureMapper.callbacks m))
      /\ GestureMapper.completion o = Normal)
  /\ (GestureMapper.dispatched o = None ->
      GestureMapper.invoked o = [] /\ GestureMapper.completion o = Normal).
Proof.
  unfold GestureMapper.processGesture.
  destruct (GestureMapper.mappings m !! ev_type event) as [mapping|].
  2:{ simpl. split; [intros; discriminate | auto]. }
  pose proof (evalPolicies_frame (GestureMapper.policies m) m now event)
    as (_ & Hcb & _).
  destruct (GestureMapper.evalPolicies _ _ _ _) as [m' rs]. simpl in Hcb.
  destruct (negb _); simpl.
  { split; [intros; discriminate | auto]. }
  unfold GestureMapper.emitAction, forEach. rewrite Hcb.
  destruct (forEachFrom 0 (GestureMapper.callbacks m)
              (gm_action mapping, event)) as [called c] eqn:Hrun.
  simpl. split; [|intros; discriminate].
  intros action e Hd Hall. injection Hd as <- <-.
  rewrite (forEachFrom_all_return _ _ 0 Hall) in Hrun.
  injection Hrun as <- <-. auto.
Qed.

Lemma X11_dispatch_reaches_all_witness :
  let m := GestureMapper.onAction quiet
             (GestureMapper.onAction quiet (GestureMapper.new None)) in
  let o := GestureMapper.processGesture m 1000
             (sampleEvent "a" open_palm 0.9 0.5 0.5) in
  GestureMapper.invoked o = [0; 1]%nat
  /\ GestureMapper.completion o = Normal.
Proof.
  intros m.
  apply (proj1 (X11_dispatch_reaches_all_subscribers m 1000
                  (sampleEvent "a" open_palm 0.9 0.5 0.5))
           "open-launcher" (sampleEvent "a" open_palm 0.9 0.5 0.5)).
  - vm_compute. reflexivity.
  - repeat constructor.
Defined.





(** X13. The default policies never consult [requireFocus], [global],
    [holdMillis] or [continuous]: replacing the mapping of the event's type
    by one with the same action and confidence threshold but any values of
    these four fields changes neither what is dispatched nor what the rate
    limiter records. *)
Theorem X13_focus_and_hold_fields_ignored
    (m : GestureMapper.t) (mapping : GestureMapping) (event : GestureEvent)
    (now : Z) (requireFocus global : option bool) (holdMillis : option Z)
    (continuous : option bool) :
  GestureMapper.policies m = GestureMapper.defaultPolicies ->
  GestureMapper.mappings m !! ev_type event = Some mapping ->
  let m' := GestureMapper.addMapping (ev_type event)
              (mkMapping (ev_type event) (gm_action mapping) requireFocus
                 global holdMillis (gm_confidenceThreshold mapping) continuous)
              m in
  let o := GestureMapper.processGesture m now event in
  let o' := GestureMapper.processGesture m' now event in
  GestureMapper.dispatched o' = GestureMapper.dispatched o
  /\ GestureMapper.lastActionTimes (GestureMapper.mapper o')
     = GestureMapper.lastActionTimes (GestureMapper.mapper o).
Proof.
  intros Hpol Hmap m' o o'.
  assert (Hlook : GestureMapper.mappings m' !! ev_type event
            = Some (mkMapping (ev_type event) (gm_action mapping) requireFocus
                      global holdMillis (gm_confidenceThreshold mapping)
                      continuous))
    by (unfold m'; simpl; apply lookup_insert_eq).
  assert (Hconf : GestureMapper.confidencePolicy m' event
                  = GestureMapper.confidencePolicy m event).
  { unfold GestureMapper.confidencePolicy. rewrite Hlook, Hmap. reflexivity. }
  pose proof (processGesture_default_policies m now event mapping Hpol Hmap) as H.
  pose proof (processGesture_default_policies m' now event _ Hpol Hlook) as H'.
  simpl in H, H'. fold o in H. fold o' in H'.
  destruct (200 <=? _)%Z.
  - destruct H as [Hm Hd]. destruct H' as [Hm' Hd'].
    rewrite Hd, Hd', Hm, Hm', Hconf. simpl. split; reflexivity.
  - destruct H as [Hm Hd]. destruct H' as [Hm' Hd'].
    rewrite Hd, Hd', Hm, Hm'. split; reflexivity.
Qed.

Lemma X13_focus_and_hold_fields_witness :
  let m := GestureMapper.new None in
  let event := sampleEvent "a" pinch 0.9 0.5 0.5 in
  let m' := GestureMapper.addMapping pinch
              (mkMapping pinch "drag" None None (Some 5000%Z) None (Some true))
              m in
  let o := GestureMapper.processGesture m 1000 event in
  let o' := GestureMapper.processGesture m' 1000 event in
  GestureMapper.dispatched o' = GestureMapper.dispatched o
  /\ GestureMapper.lastActionTimes (GestureMapper.mapper o')
     = GestureMapper.lastActionTimes (GestureMapper.mapper o).
Proof.
  apply (X13_focus_and_hold_fields_ignored (GestureMapper.new None)
           (mkMapping pinch "drag" (Some true) None (Some 80%Z) None None)
           (sampleEvent "a" pinch 0.9 0.5 0.5) 1000
           None None (Some 5000%Z) (Some true)).
  - reflexivity.
  - vm_compute. reflexivity.
Defined.

(** * Further properties of the window manager *)

(** X14. A drag event that finds no session to continue and no window to
    anchor on (nothing focused, or a focused id that the store does not
    hold) changes neither the session nor the store; it only arms the
    inactivity timer. *)
Theorem X14_drag_without_focused_window_is_noop
    (view : WindowManager.Viewport) (wm : WindowManager.t)
    (store : WindowManager.Store) (event : GestureEvent) :
  WindowManager.isDragging (WindowManager.dragState wm) = false ->
  (WindowManager.present (WindowManager.focusedWindowId store) = None
   \/ exists id,
        WindowManager.present (WindowManager.focusedWindowId store) = Some id
        /\ WindowManager.getWindow store id = None) ->
  WindowManager.handleDragGesture view wm store event
  = ({| WindowManager.dragState := WindowManager.dragState wm;
        WindowManager.dragTimeout := true;
        WindowManager.nextZIndex := WindowManager.nextZIndex wm |},
     store).
Proof.
  intros Hidle Hfocus. unfold WindowManager.handleDragGesture.
  rewrite Hidle. simpl.
  destruct (WindowManager.present (WindowManager.windowId _));
    destruct Hfocus as [-> | (id & -> & ->)]; reflexivity.
Qed.

Lemma X14_drag_without_focused_window_witness :
  WindowManager.handleDragGesture sampleView WindowManager.new unfocusedStore
    (sampleEvent "a" pinch 0.9 0.5 0.5)
  = ({| WindowManager.dragState := WindowManager.idleDrag;
        WindowManager.dragTimeout := true;
        WindowManager.nextZIndex := 1000 |},
     unfocusedStore).
Proof.
  apply (X14_drag_without_focused_window_is_noop sampleView WindowManager.new
           unfocusedStore (sampleEvent "a" pinch 0.9 0.5 0.5)).
  - reflexivity.
  - left. reflexivity.
Defined.

Lemma handleDragGesture_arms_timer (view : WindowManager.Viewport)
    (wm : WindowManager.t) (store : WindowManager.Store) (event : GestureEvent) :
  WindowManager.dragTimeout
    (WindowManager.handleDragGesture view wm store event).1 = true
  /\ WindowManager.nextZIndex
       (WindowManager.handleDragGesture view wm store event).1
     = WindowManager.nextZIndex wm.
Proof.
  unfold WindowManager.handleDragGesture.
  destruct (WindowManager.present (WindowManager.windowId _)) as [id|].
  - destruct (_ && _); simpl; auto.
  - simpl. auto.
Qed.

(** X15. When the inactivity timer fires after a drag event, the session is
    gone; the next drag event, even one with the id of the ended session,
    does not move any window: with a window focused it opens a new session
    anchored on that window's current position. *)
Theorem X15_timeout_ends_session
    (view : WindowManager.Viewport) (wm : WindowManager.t)
    (store store' : WindowManager.Store) (e1 e2 : GestureEvent)
    (id : string) (w : WindowManager.WebOSWindow) :
  WindowManager.present (WindowManager.focusedWindowId store') = Some id ->
  WindowManager.getWindow store' id = Some w ->
  let ended := WindowManager.timeoutFires
                 (WindowManager.handleDragGesture view wm store e1).1 in
  let r := WindowManager.handleDragGesture view ended store' e2 in
  let screen := WindowManager.screenPosition view e2 in
  WindowManager.dragState ended = WindowManager.idleDrag
  /\ WindowManager.dragTimeout ended = false
  /\ r.2 = store'
  /\ WindowManager.dragState r.1
     = {| WindowManager.isDragging := true;
          WindowManager.windowId := Some id;
          WindowManager.startPosition := screen;
          WindowManager.offset :=
            {| pt_x := pt_x screen - pt_x (WindowManager.w_position w);
               pt_y := pt_y screen - pt_y (WindowManager.w_position w) |};
          WindowManager.gestureSequenceId := ev_id e2 |}.
Proof.
  intros Hfocus Hwin ended r screen.
  destruct (handleDragGesture_arms_timer view wm store e1) as [Harmed _].
  assert (Hended : ended
            = WindowManager.endDrag
                (WindowManager.handleDragGesture view wm store e1).1)
    by (unfold ended, WindowManager.timeoutFires; rewrite Harmed; reflexivity).
  unfold r. rewrite Hended. unfold WindowManager.handleDragGesture at 1.
  simpl. rewrite Hfocus, Hwin. simpl. repeat split; reflexivity.
Qed.

Lemma X15_timeout_ends_session_witness :
  let ended := WindowManager.timeoutFires
                 (WindowManager.handleDragGesture sampleView WindowManager.new
                    sampleStore (sampleEvent "a" pinch 0.9 0.1 0.125)).1 in
  let e2 := sampleEvent "a" pinch 0.9 0.5 0.5 in
  let r := WindowManager.handleDragGesture sampleView ended sampleStore e2 in
  let screen := WindowManager.screenPosition sampleView e2 in
  WindowManager.dragState ended = WindowManager.idleDrag
  /\ WindowManager.dragTimeout ended = false
  /\ r.2 = sampleStore
  /\ WindowManager.dragState r.1
     = {| WindowManager.isDragging := true;
          WindowManager.windowId := Some "w1";
          WindowManager.startPosition := screen;
          WindowManager.offset :=
            {| pt_x := pt_x screen - 100; pt_y := pt_y screen - 100 |};
          WindowManager.gestureSequenceId := Some "a" |}.
Proof.
  apply (X15_timeout_ends_session sampleView WindowManager.new sampleStore
           sampleStore (sampleEvent "a" pinch 0.9 0.1 0.125)
           (sampleEvent "a" pinch 0.9 0.5 0.5) "w1"
           (WindowManager.mkWindow "w1" "Files" (mkPoint 100 100) 1000
              false false true)).
  - reflexivity.
  - reflexivity.
Defined.

(** X16. A drag event never does more to the store than move the window
    of the session it continues: the focus, the number and order of the
    windows, and every window with another id stay as they were, and a
    moved window changes in its position only. *)
Theorem X16_drag_changes_only_session_window_position
    (view : WindowManager.Viewport) (wm : WindowManager.t)
    (store : WindowManager.Store) (event : GestureEvent) :
  let r := WindowManager.handleDragGesture view wm store event in
  WindowManager.focusedWindowId r.2 = WindowManager.focusedWindowId store
  /\ Forall2 (fun w w' =>
                w' = w
                \/ (WindowManager.present
                      (WindowManager.windowId (WindowManager.dragState wm))
                    = Some (WindowManager.w_id w)
                    /\ w' = WindowManager.setPosition w
                              (WindowManager.w_position w')))
             (WindowManager.windows store) (WindowManager.windows r.2).
Proof.
  unfold WindowManager.handleDragGesture.
  destruct (WindowManager.present (WindowManager.windowId _)) as [id|] eqn:Hid.
  2:{ simpl. split; [reflexivity|].
      induction (WindowManager.windows store); constructor; auto. }
  destruct (_ && _); simpl.
  - split; [reflexivity|].
    induction (WindowManager.windows store) as [|w rest IH]; simpl;
      constructor; [|exact IH].
    destruct (bool_decide (WindowManager.w_id w = id)) eqn:Hw.
    + right. apply bool_decide_eq_true_1 in Hw. subst id.
      split; reflexivity.
    + left. reflexivity.
  - split; [reflexivity|].
    induction (WindowManager.windows store); constructor; auto.
Qed.

Lemma getWindow_updateWindow_inv (store : WindowManager.Store) (id : string)
    (p : Point) (w' : WindowManager.WebOSWindow) :
  WindowManager.getWindow (WindowManager.updateWindow store id p) id = Some w' ->
  exists w, WindowManager.getWindow store id = Some w
            /\ w' = WindowManager.setPosition w p.
Proof.
  unfold WindowManager.getWindow, WindowManager.updateWindow. simpl.
  induction (WindowManager.windows store) as [|w0 rest IH]; simpl.
  - discriminate.
  - destruct (bool_decide (WindowManager.w_id w0 = id)) eqn:Hid; simpl.
    + rewrite Hid. intros H. injection H as <-. eauto.
    + rewrite Hid. exact IH.
Qed.

(** X17. Wherever a drag asks a window to go, [updateWindowPosition]
    stores a position with non-negative coordinates, at most
    [innerWidth - 200] across and [innerHeight - 50] down (at most 0 when
    the viewport is smaller than that margin). *)
Theorem X17_dragged_window_stays_on_screen
    (view : WindowManager.Viewport) (store : WindowManager.Store)
    (id : string) (p : Point) (w' : WindowManager.WebOSWindow) :
  WindowManager.getWindow
    (WindowManager.updateWindowPosition view store id p) id = Some w' ->
  (0 <= pt_x (WindowManager.w_position w'))%Q
  /\ (pt_x (WindowManager.w_position w')
      <= Qmax 0 (WindowManager.innerWidth view - 200))%Q
  /\ (0 <= pt_y (WindowManager.w_position w'))%Q
  /\ (pt_y (WindowManager.w_position w')
      <= Qmax 0 (WindowManager.innerHeight view - 50))%Q.
Proof.
  unfold WindowManager.updateWindowPosition. intros Hget.
  apply getWindow_updateWindow_inv in Hget as (w & _ & ->). simpl.
  repeat split.
  - apply Q.le_max_l.
  - apply Q.max_le_compat_l. apply Q.le_min_r.
  - apply Q.le_max_l.
  - apply Q.max_le_compat_l. apply Q.le_min_r.
Qed.

Lemma X17_dragged_window_witness :
  let w' := WindowManager.mkWindow "w1" "Files" (mkPoint 800 0) 1000
              false false true in
  (0 <= pt_x (WindowManager.w_position w'))%Q
  /\ (pt_x (WindowManager.w_position w')
      <= Qmax 0 (WindowManager.innerWidth sampleView - 200))%Q
  /\ (0 <= pt_y (WindowManager.w_position w'))%Q
  /\ (pt_y (WindowManager.w_position w')
      <= Qmax 0 (WindowManager.innerHeight sampleView - 50))%Q.
Proof.
  apply (X17_dragged_window_stays_on_screen sampleView sampleStore "w1"
           (mkPoint 2500 (-40))).
  vm_compute. reflexivity.
Defined.

Lemma getWindow_is_Some (store : WindowManager.Store) (id : string) :
  is_Some (WindowManager.getWindow store id)
  <-> exists w, In w (WindowManager.windows store) /\ WindowManager.w_id w = id.
Proof.
  unfold WindowManager.getWindow.
  induction (WindowManager.windows store) as [|w0 rest IH]; simpl.
  - split; [intros [w Hw]; discriminate | intros (w & [] & _)].
  - destruct (bool_decide (WindowManager.w_id w0 = id)) eqn:Hid.
    + apply bool_decide_eq_true_1 in Hid. split; eauto.
    + apply bool_decide_eq_false_1 in Hid. rewrite IH. split.
      * intros (w & Hin & Hw). eauto.
      * intros (w & [<-|Hin] & Hw); [contradiction|eauto].
Qed.

Lemma updateWindowWith_ids (store : WindowManager.Store) (id : string)
    (updates : WindowManager.WebOSWindow -> WindowManager.WebOSWindow) :
  (forall w, WindowManager.w_id (updates w) = WindowManager.w_id w) ->
  List.map WindowManager.w_id
    (WindowManager.windows (SystemStore.updateWindowWith store id updates))
  = List.map WindowManager.w_id (WindowManager.windows store).
Proof.
  intros Hid. simpl.
  induction (WindowManager.windows store) as [|w rest IH]; simpl; [reflexivity|].
  rewrite IH. destruct (bool_decide _); [rewrite Hid|]; reflexivity.
Qed.

Lemma setFocusedWindow_ids (store : WindowManager.Store) (id : option string) :
  List.map WindowManager.w_id
    (WindowManager.windows (SystemStore.setFocusedWindow store id))
  = List.map WindowManager.w_id (WindowManager.windows store).
Proof.
  simpl. induction (WindowManager.windows store) as [|w rest IH]; simpl;
    [reflexivity|]. rewrite IH. reflexivity.
Qed.

(** What [focusWindow] makes of each window when the id is in the store. *)
Lemma focusWindow_windows (wm : WindowManager.t) (store : WindowManager.Store)
    (id : string) :
  is_Some (WindowManager.getWindow store id) ->
  WindowControls.focusWindow wm store id
  = (WindowControls.withNextZIndex wm (WindowManager.nextZIndex wm + 1),
     {| WindowManager.windows :=
          List.map (fun w =>
                      if bool_decide (WindowManager.w_id w = id)
                      then WindowControls.raised (WindowManager.nextZIndex wm) w
                      else SystemStore.setFocused w false)
                   (WindowManager.windows store);
        WindowManager.focusedWindowId := Some id |}).
Proof.
  intros [w0 Hw0]. unfold WindowControls.focusWindow. rewrite Hw0.
  f_equal. unfold SystemStore.setFocusedWindow, SystemStore.updateWindowWith.
  simpl. f_equal. rewrite List.map_map. apply List.map_ext. intros w.
  destruct (bool_decide (WindowManager.w_id w = id)) eqn:Hid; simpl.
  - apply bool_decide_eq_true_1 in Hid.
    unfold SystemStore.setFocused, WindowControls.raised. simpl.
    rewrite bool_decide_eq_true_2 by congruence. reflexivity.
  - apply bool_decide_eq_false_1 in Hid.
    rewrite bool_decide_eq_false_2 by congruence. reflexivity.
Qed.

(** X18. [focusWindow] on an id that the store holds makes it the focused
    id, sets the [focused] flag on the windows with that id and clears it
    on all others, gives the focused window the next z-index and advances
    the counter; ids and order of the windows are kept.  When every
    window was below the counter before, the focused window is then
    strictly in front of all others and every window is still below the
    counter.  On an id that the store does not hold nothing changes. *)
Theorem X18_focusWindow_brings_to_front
    (wm : WindowManager.t) (store : WindowManager.Store) (id : string) :
  let r := WindowControls.focusWindow wm store id in
  (WindowManager.getWindow store id = None -> r = (wm, store))
  /\ (is_Some (WindowManager.getWindow store id) ->
      WindowManager.focusedWindowId r.2 = Some id
      /\ WindowManager.nextZIndex r.1 = (WindowManager.nextZIndex wm + 1)%Z
      /\ WindowManager.dragState r.1 = WindowManager.dragState wm
      /\ List.map WindowManager.w_id (WindowManager.windows r.2)
         = List.map WindowManager.w_id (WindowManager.windows store)
      /\ Forall (fun w =>
                   (WindowManager.w_focused w = true
                    <-> WindowManager.w_id w = id)
                   /\ (WindowManager.w_id w = id ->
                       WindowManager.w_zIndex w = WindowManager.nextZIndex wm))
                (WindowManager.windows r.2)
      /\ (Forall (fun w => (WindowManager.w_zIndex w
                            < WindowManager.nextZIndex wm)%Z)
                 (WindowManager.windows store) ->
          Forall (fun w => (WindowManager.w_zIndex w
                            < WindowManager.nextZIndex r.1)%Z)
                 (WindowManager.windows r.2)
          /\ forall w v,
               In w (WindowManager.windows r.2) ->
               In v (WindowManager.windows r.2) ->
               WindowManager.w_id w = id -> WindowManager.w_id v <> id ->
               (WindowManager.w_zIndex v < WindowManager.w_zIndex w)%Z)).
Proof.
  intros r. split.
  { intros Hnone. unfold r, WindowControls.focusWindow. rewrite Hnone.
    reflexivity. }
  intros Hsome. unfold r. rewrite (focusWindow_windows wm store id Hsome).
  simpl. clear r Hsome.
  split; [reflexivity|]. split; [reflexivity|]. split; [reflexivity|].
  split.
  { rewrite List.map_map. apply List.map_ext. intros w.
    destruct (bool_decide _); reflexivity. }
  assert (Hshape : forall w',
    In w' (List.map (fun w =>
                      if bool_decide (WindowManager.w_id w = id)
                      then WindowControls.raised (WindowManager.nextZIndex wm) w
                      else SystemStore.setFocused w false)
                   (WindowManager.windows store)) ->
    exists w, In w (WindowManager.windows store)
      /\ ((WindowManager.w_id w = id
           /\ w' = WindowControls.raised (WindowManager.nextZIndex wm) w)
          \/ (WindowManager.w_id w <> id
              /\ w' = SystemStore.setFocused w false))).
  { intros w' Hin. apply in_map_iff in Hin as (w & <- & Hin).
    exists w. split; [exact Hin|].
    destruct (bool_decide (WindowManager.w_id w = id)) eqn:Hid.
    - left. apply bool_decide_eq_true_1 in Hid. auto.
    - right. apply bool_decide_eq_false_1 in Hid. auto. }
  split.
  { apply List.Forall_forall. intros w' Hin.
    destruct (Hshape w' Hin) as (w & _ & [[Hid ->]|[Hid ->]]); simpl.
    - split; [tauto|reflexivity].
    - split; [split; [discriminate|contradiction]|contradiction]. }
  intros Hbelow. rewrite List.Forall_forall in Hbelow. split.
  { apply List.Forall_forall. intros w' Hin.
    destruct (Hshape w' Hin) as (w & Hw & [[Hid ->]|[Hid ->]]); simpl.
    - lia.
    - specialize (Hbelow w Hw). lia. }
  intros w v Hw Hv Hwid Hvid.
  destruct (Hshape w Hw) as (w0 & Hw0 & [[Hid ->]|[Hid ->]]); simpl in *;
    [|contradiction].
  destruct (Hshape v Hv) as (v0 & Hv0 & [[Hid' ->]|[Hid' ->]]); simpl in *;
    [contradiction|].
  apply Hbelow. exact Hv0.
Qed.

Lemma X18_focusWindow_witness :
  let wm := WindowControls.withNextZIndex WindowManager.new 1002 in
  let r := WindowControls.focusWindow wm twoWindowStore "w1" in
  WindowManager.focusedWindowId r.2 = Some "w1"
  /\ WindowManager.windows r.2
     = [WindowManager.mkWindow "w1" "Files" (mkPoint 100 100) 1002 false false true;
        WindowManager.mkWindow "w2" "Editor" (mkPoint 130 130) 1001 false false false]
  /\ WindowManager.nextZIndex r.1 = 1003%Z.
Proof.
  intros wm r.
  destruct (proj2 (X18_focusWindow_brings_to_front wm twoWindowStore "w1"))
    as (Hfocus & Hnext & _).
  - vm_compute. eauto.
  - split; [exact Hfocus|]. split; [reflexivity|exact Hnext].
Defined.

Lemma insertByZIndex_In (w x : WindowManager.WebOSWindow)
    (sorted : list WindowManager.WebOSWindow) :
  In x (WindowControls.insertByZIndex w sorted) <-> x = w \/ In x sorted.
Proof.
  induction sorted as [|v rest IH]; simpl.
  - intuition congruence.
  - destruct (_ <? _)%Z; simpl; [rewrite IH|]; intuition congruence.
Qed.

Lemma sortByZIndex_In (x : WindowManager.WebOSWindow)
    (ws : list WindowManager.WebOSWindow) :
  In x (WindowControls.sortByZIndex ws) <-> In x ws.
Proof.
  unfold WindowControls.sortByZIndex.
  induction ws as [|w rest IH]; simpl; [tauto|].
  rewrite insertByZIndex_In, IH. intuition congruence.
Qed.

(** The head of a list sorted by [sortByZIndex] has the largest z-index. *)
Lemma sortByZIndex_head (ws : list WindowManager.WebOSWindow)
    (top : WindowManager.WebOSWindow) (rest : list WindowManager.WebOSWindow) :
  WindowControls.sortByZIndex ws = top :: rest ->
  forall w, In w ws ->
            (WindowManager.w_zIndex w <= WindowManager.w_zIndex top)%Z.
Proof.
  unfold WindowControls.sortByZIndex. revert top rest.
  induction ws as [|w0 ws IH]; intros top rest Hsort w Hin; simpl in *.
  - destruct Hin.
  - destruct (fold_right WindowControls.insertByZIndex [] ws)
      as [|v sorted] eqn:Htail; simpl in Hsort.
    + injection Hsort as <- <-.
      destruct Hin as [<-|Hin]; [lia|].
      apply (sortByZIndex_In w ws) in Hin.
      unfold WindowControls.sortByZIndex in Hin. rewrite Htail in Hin.
      destruct Hin.
    + specialize (IH v sorted eq_refl).
      destruct (Z.ltb_spec (WindowManager.w_zIndex w0) (WindowManager.w_zIndex v))
        as [Hlt|Hge]; injection Hsort as <- <-.
      * destruct Hin as [<-|Hin]; [lia|]. apply IH. exact Hin.
      * destruct Hin as [<-|Hin]; [lia|].
        specialize (IH w Hin). lia.
Qed.

(** X19. After [minimizeWindow] the focus goes to a window that is not
    minimized, has another id and has the largest z-index among such
    windows; when there is none, nothing is focused.  The minimized
    window never keeps the focus. *)
Theorem X19_minimizeWindow_moves_focus
    (wm : WindowManager.t) (store : WindowManager.Store) (id : string) :
  let r := WindowControls.minimizeWindow wm store id in
  let candidate w :=
    WindowManager.w_minimized w = false /\ WindowManager.w_id w <> id in
  match WindowManager.focusedWindowId r.2 with
  | Some next =>
      next <> id
      /\ exists w, In w (WindowManager.windows store)
                   /\ WindowManager.w_id w = next
                   /\ candidate w
                   /\ forall v, In v (WindowManager.windows store) ->
                                candidate v ->
                                (WindowManager.w_zIndex v
                                 <= WindowManager.w_zIndex w)%Z
  | None => forall v, In v (WindowManager.windows store) -> ~ candidate v
  end.
Proof.
  intros r candidate. unfold r, WindowControls.minimizeWindow.
  set (cands := List.filter
                  (fun w => negb (WindowManager.w_minimized w)
                            && negb (bool_decide (WindowManager.w_id w = id)))
                  (WindowManager.windows store)).
  assert (Hcand : forall w, In w cands
                            <-> In w (WindowManager.windows store) /\ candidate w).
  { intros w. unfold cands, candidate. rewrite filter_In, andb_true_iff,
      !negb_true_iff, bool_decide_eq_false. tauto. }
  destruct (WindowControls.sortByZIndex cands) as [|top rest] eqn:Hsort.
  - simpl. intros v Hin Hc.
    assert (Hv : In v cands) by (apply Hcand; auto).
    apply sortByZIndex_In in Hv. rewrite Hsort in Hv. destruct Hv.
  - assert (Htop : In top cands)
      by (apply sortByZIndex_In; rewrite Hsort; left; reflexivity).
    apply Hcand in Htop as [Hin [Hmin Hid]].
    assert (Hsome : is_Some (WindowManager.getWindow
                      (SystemStore.updateWindowWith store id
                         WindowControls.minimized)
                      (WindowManager.w_id top))).
    { apply getWindow_is_Some.
      assert (Hids : In (WindowManager.w_id top)
                (List.map WindowManager.w_id
                   (WindowManager.windows
                      (SystemStore.updateWindowWith store id
                         WindowControls.minimized)))).
      { rewrite updateWindowWith_ids by reflexivity.
        apply in_map. exact Hin. }
      apply in_map_iff in Hids as (w & Hw & Hwin). eauto. }
    rewrite (focusWindow_windows wm _ _ Hsome). simpl.
    split; [exact Hid|].
    exists top. split; [exact Hin|]. split; [reflexivity|].
    split; [split; assumption|].
    intros v Hv Hc. apply (sortByZIndex_head cands top rest Hsort).
    apply Hcand. auto.
Qed.

(** X20. [closeWindow] removes every window with the given id and keeps
    the others in their order; the focus is cleared exactly when the
    closed window was the focused one, and no other window receives the
    focus in its place. *)
Theorem X20_closeWindow_removes_and_unfocuses
    (store : WindowManager.Store) (id : string) :
  let store' := WindowControls.closeWindow store id in
  WindowManager.getWindow store' id = None
  /\ (forall other, other <> id ->
        WindowManager.getWindow store' other
        = WindowManager.getWindow store other)
  /\ (WindowManager.focusedWindowId store = Some id ->
      WindowManager.focusedWindowId store' = None)
  /\ (WindowManager.focusedWindowId store <> Some id ->
      WindowManager.focusedWindowId store'
      = WindowManager.focusedWindowId store).
Proof.
  unfold WindowControls.closeWindow, SystemStore.removeWindow,
    WindowManager.getWindow. simpl.
  split.
  { induction (WindowManager.windows store) as [|w rest IH]; simpl;
      [reflexivity|].
    destruct (bool_decide (WindowManager.w_id w = id)) eqn:Hid; simpl;
      [exact IH|]. rewrite Hid. exact IH. }
  split.
  { intros other Hne.
    induction (WindowManager.windows store) as [|w rest IH]; simpl;
      [reflexivity|].
    destruct (bool_decide (WindowManager.w_id w = id)) eqn:Hid; simpl.
    - apply bool_decide_eq_true_1 in Hid.
      rewrite (bool_decide_eq_false_2 (WindowManager.w_id w = other))
        by congruence.
      exact IH.
    - destruct (bool_decide (WindowManager.w_id w = other)); [reflexivity|].
      exact IH. }
  split.
  - intros Hfocus. rewrite bool_decide_eq_true_2 by assumption. reflexivity.
  - intros Hfocus. rewrite bool_decide_eq_false_2 by assumption. reflexivity.
Qed.

(** X21. The handedness label of a full hand does not depend on its rank
    in the detection list and is decided by the side of the thumb tip
    relative to the pinky tip: mirroring the camera swaps the label, except
    when the two tips have the same x, where the hand is labelled Right
    either way.  A hand with fewer than 21 landmarks is labelled by the
    parity of its rank: Right for even ranks, Left for odd ones. *)
Theorem X21_handedness_label
    (landmarks : list HandLandmark) (index : nat) :
  let thumb := InputAbstractionLayer.landmark landmarks 4 in
  let pinky := InputAbstractionLayer.landmark landmarks 20 in
  let label flip := HandTrackingEngine.determineHandedness flip landmarks index in
  ((21 <= length landmarks)%nat ->
   (forall flip other,
       HandTrackingEngine.determineHandedness flip landmarks other = label flip)
   /\ (~ (lm_x thumb == lm_x pinky)%Q -> label true <> label false)
   /\ ((lm_x thumb == lm_x pinky)%Q -> forall flip, label flip = Right))
  /\ ((length landmarks < 21)%nat ->
      forall flip,
        label flip = if Nat.even index then Right else Left).
Proof.
  intros thumb pinky label. unfold label, HandTrackingEngine.determineHandedness.
  fold thumb pinky. split.
  - intros Hlen.
    destruct (Nat.leb_spec 21 (length landmarks)) as [_|Hlt]; [|lia].
    split; [reflexivity|].
    destruct (Qltb (lm_x pinky) (lm_x thumb)) eqn:H1;
      destruct (Qltb (lm_x thumb) (lm_x pinky)) eqn:H2.
    + exfalso. apply Qltb_true_iff in H1. apply Qltb_true_iff in H2.
      apply (Qlt_irrefl (lm_x pinky)). eapply Qlt_trans; eassumption.
    + split; [intros _; discriminate|].
      intros Heq. exfalso. apply Qltb_true_iff in H1. rewrite Heq in H1.
      apply (Qlt_irrefl _ H1).
    + split; [intros _; discriminate|].
      intros Heq. exfalso. apply Qltb_true_iff in H2. rewrite Heq in H2.
      apply (Qlt_irrefl _ H2).
    + split.
      * intros Hne. exfalso. apply Hne.
        apply Qle_antisym; apply Qnot_lt_le; intros Hlt;
          apply Qltb_true_iff in Hlt; congruence.
      * intros _ [|]; reflexivity.
  - intros Hlen flip.
    destruct (Nat.leb_spec 21 (length landmarks)) as [Hge|_]; [lia|].
    destruct (Nat.even index) eqn:Heven.
    + apply Nat.even_spec in Heven. destruct Heven as [k ->].
      replace ((2 * k) mod 2)%nat with 0%nat; [reflexivity|].
      rewrite Nat.mul_comm. symmetry. apply Nat.Div0.mod_mul.
    + assert (Hodd : Nat.odd index = true)
        by (rewrite <- Nat.negb_even, Heven; reflexivity).
      apply Nat.odd_spec in Hodd. destruct Hodd as [k ->].
      replace ((2 * k + 1) mod 2)%nat with 1%nat; [reflexivity|].
      rewrite Nat.add_comm, Nat.mul_comm, Nat.Div0.mod_add. reflexivity.
Qed.

Lemma find_map_ids (f : WindowManager.WebOSWindow -> WindowManager.WebOSWindow)
    (ws : list WindowManager.WebOSWindow) (id : string) :
  (forall w, WindowManager.w_id (f w) = WindowManager.w_id w) ->
  List.find (fun w => bool_decide (WindowManager.w_id w = id)) (List.map f ws)
  = f <$> List.find (fun w => bool_decide (WindowManager.w_id w = id)) ws.
Proof.
  intros Hid. induction ws as [|w rest IH]; simpl; [reflexivity|].
  rewrite Hid. destruct (bool_decide _); [reflexivity|exact IH].
Qed.

(** X22. A mouse drag. Pressing the button on the title bar of a window
    of the store focuses it and opens a session on it, anchored at the
    pointer and with no gesture sequence id; every mouse move then asks
    [updateWindowPosition] for the pointer minus that anchor offset;
    releasing the button ends the session, after which mouse moves leave
    the store alone. *)
Theorem X22_mouse_drag_session
    (view : WindowManager.Viewport) (wm : WindowManager.t)
    (store : WindowManager.Store) (id : string) (client : Point)
    (w : WindowManager.WebOSWindow) :
  WindowManager.getWindow store id = Some w ->
  id <> EmptyString ->
  let r := WindowControls.handleMouseDown wm store (Some id) true client in
  let anchor :=
    {| pt_x := pt_x client - pt_x (WindowManager.w_position w);
       pt_y := pt_y client - pt_y (WindowManager.w_position w) |} in
  WindowManager.dragState r.1
  = {| WindowManager.isDragging := true;
       WindowManager.windowId := Some id;
       WindowManager.startPosition := client;
       WindowManager.offset := anchor;
       WindowManager.gestureSequenceId := None |}
  /\ WindowManager.focusedWindowId r.2 = Some id
  /\ (forall pointer,
        WindowControls.handleMouseMove view r.1 r.2 pointer
        = WindowManager.updateWindowPosition view r.2 id
            {| pt_x := pt_x pointer - pt_x anchor;
               pt_y := pt_y pointer - pt_y anchor |})
  /\ WindowManager.dragState (WindowControls.handleMouseUp r.1)
     = WindowManager.idleDrag
  /\ (forall anyStore pointer,
        WindowControls.handleMouseMove view (WindowControls.handleMouseUp r.1)
          anyStore pointer = anyStore).
Proof.
  intros Hwin Hid r anchor.
  assert (Hsome : is_Some (WindowManager.getWindow store id)) by eauto.
  set (store1 := {| WindowManager.windows :=
          List.map (fun w =>
                      if bool_decide (WindowManager.w_id w = id)
                      then WindowControls.raised (WindowManager.nextZIndex wm) w
                      else SystemStore.setFocused w false)
                   (WindowManager.windows store);
        WindowManager.focusedWindowId := Some id |}).
  assert (Hr : r = (WindowManager.startDrag
                      (WindowControls.withNextZIndex wm
                         (WindowManager.nextZIndex wm + 1))
                      store1 id client,
                    store1)).
  { unfold r, WindowControls.handleMouseDown.
    rewrite (focusWindow_windows wm store id Hsome). reflexivity. }
  assert (Hwin1 : WindowManager.getWindow store1 id
                  = Some (WindowControls.raised (WindowManager.nextZIndex wm) w)).
  { unfold WindowManager.getWindow, store1. simpl.
    rewrite find_map_ids by (intros w0; destruct (bool_decide _); reflexivity).
    unfold WindowManager.getWindow in Hwin. rewrite Hwin. simpl.
    apply List.find_some in Hwin as [_ Hb]. rewrite Hb. reflexivity. }
  assert (Hdrag : WindowManager.dragState r.1
            = {| WindowManager.isDragging := true;
                 WindowManager.windowId := Some id;
                 WindowManager.startPosition := client;
                 WindowManager.offset := anchor;
                 WindowManager.gestureSequenceId := None |}).
  { rewrite Hr. simpl. unfold WindowManager.startDrag. rewrite Hwin1.
    reflexivity. }
  assert (Hpresent : WindowManager.present (Some id) = Some id).
  { unfold WindowManager.present, orUndefined.
    destruct (decide (id = EmptyString)); [contradiction|reflexivity]. }
  split; [exact Hdrag|].
  split; [rewrite Hr; reflexivity|].
  split.
  { intros pointer. unfold WindowControls.handleMouseMove.
    rewrite Hdrag. cbn [WindowManager.windowId]. rewrite Hpresent.
    reflexivity. }
  unfold WindowControls.handleMouseUp. rewrite Hdrag. simpl.
  split; [reflexivity|]. intros anyStore pointer.
  unfold WindowControls.handleMouseMove. reflexivity.
Qed.

Lemma X22_mouse_drag_witness :
  let r := WindowControls.handleMouseDown WindowManager.new sampleStore
             (Some "w1") true (mkPoint 150 110) in
  WindowManager.dragState r.1
  = {| WindowManager.isDragging := true;
       WindowManager.windowId := Some "w1";
       WindowManager.startPosition := mkPoint 150 110;
       WindowManager.offset :=
         {| pt_x := 150 - 100; pt_y := 110 - 100 |};
       WindowManager.gestureSequenceId := None |}
  /\ WindowManager.focusedWindowId r.2 = Some "w1".
Proof.
  intros r.
  destruct (X22_mouse_drag_session sampleView WindowManager.new sampleStore
              "w1" (mkPoint 150 110)
              (WindowManager.mkWindow "w1" "Files" (mkPoint 100 100) 1000
                 false false true))
    as (Hdrag & Hfocus & _).
  - reflexivity.
  - discriminate.
  - split; [exact Hdrag|exact Hfocus].
Defined.

(** X23. New windows cascade: the default position has equal coordinates,
    lies between 100 and 370, and is the same again once ten more windows
    are open. *)
Theorem X23_default_position_cascades
    (store store' : WindowManager.Store) :
  let p := WindowControls.getDefaultWindowPosition store in
  pt_x p = pt_y p
  /\ (exists k : Z, (0 <= k <= 9)%Z /\ pt_x p = inject_Z (100 + k * 30))
  /\ (length (WindowManager.windows store')
      = (length (WindowManager.windows store) + 10)%nat ->
      WindowControls.getDefaultWindowPosition store' = p).
Proof.
  unfold WindowControls.getDefaultWindowPosition. simpl.
  split; [reflexivity|]. split.
  - exists (Z.of_nat (length (WindowManager.windows store)) mod 10)%Z.
    split; [|reflexivity].
    pose proof (Z.mod_pos_bound
                  (Z.of_nat (length (WindowManager.windows store))) 10).
    lia.
  - intros Hlen. rewrite Hlen.
    replace (Z.of_nat (length (WindowManager.windows store) + 10))
      with (Z.of_nat (length (WindowManager.windows store)) + 1 * 10)%Z by lia.
    rewrite Z.mod_add by lia. reflexivity.
Qed.
